(** * FallingText: token rendering, activation and physics-session lifecycle

    A shallow embedding of [src/FallingText.jsx] (a React function component
    driving a matter-js world) and of the way [src/App.js] configures it.

    Conventions of the embedding:
    - JavaScript strings are [string]; [text.split(" ")] is [split];
      [String.prototype.toLowerCase] is a parameter of the token renderer
      (every statement about emphasis holds for any case mapping), and the
      component instance uses the ASCII mapping [toLowerCase], which is
      the JavaScript one on ASCII texts;
    - the markup given to [innerHTML] is what the component writes; the
      spans the browser makes of it are those of the model when the text
      and the highlight class carry no markup characters ([plainProps]),
      and the statements that count spans or word bodies against the pieces
      of the text ask for that;
    - the highlight array is compared by identity, as React does: an array
      the host leaves out is a new one in every render ([wordsStable]);
    - JavaScript numbers (pixel measures, velocities, gravity) are idealised
      as rationals [Q]; binary64 rounding is not modelled;
    - the browser and matter-js are the environment: layout measurements,
      [Math.random] draws and intersection-observer notifications are inputs,
      and every call the component makes to matter-js or to the DOM is
      recorded in a log, in program order (within one commit a cleanup is
      logged right before the effect it belongs to);
    - React's effect discipline is written out: an effect runs after a commit
      when one of its dependencies changed, its cleanup runs once before the
      next run or at unmount, and a state update made while committing
      schedules another render;
    - the refs are set whenever an effect or a handler runs (the three
      elements are always rendered), so the guards on [textRef.current] and
      [containerRef.current] are passed; only [canvasContainerRef.current]
      in the cleanup can be found detached, at unmount;
    - the inline style writes and the per-frame loop that copies body
      transforms onto the spans (lines 173-179 and 207-221) are left out:
      they create nothing and no statement below is about them. *)

From Stdlib Require Import String Ascii List Bool Arith Lia QArith Lqa.
Import ListNotations.

Close Scope Q_scope.
Open Scope list_scope.
Open Scope string_scope.

(** ** JavaScript string helpers *)

(** [s.split(sep)] with a predicate for the separator character: every
    separator character ends a piece, empty pieces are kept, and the empty
    string yields one empty piece. *)
Fixpoint splitBy (sep : ascii -> bool) (s : string) : list string :=
  match s with
  | EmptyString => [EmptyString]
  | String c s' =>
      if sep c then EmptyString :: splitBy sep s'
      else match splitBy sep s' with
           | [] => [String c EmptyString]
           | w :: ws => String c w :: ws
           end
  end.

Definition isSpace (c : ascii) : bool := Ascii.eqb c " "%char.

(** [text.split(" ")] *)
Definition split (s : string) : list string := splitBy isSpace s.

(** [pieces.join(" ")] *)
Definition join (pieces : list string) : string := String.concat " " pieces.

(** Number of characters of [s] satisfying [p]. *)
Fixpoint countChars (p : ascii -> bool) (s : string) : nat :=
  match s with
  | EmptyString => 0
  | String c s' => ((if p c then 1 else 0) + countChars p s')%nat
  end.

(** Every character of [s] satisfies [p]. *)
Fixpoint allChars (p : ascii -> bool) (s : string) : bool :=
  match s with
  | EmptyString => true
  | String c s' => p c && allChars p s'
  end.

Definition isEmpty (s : string) : bool :=
  match s with EmptyString => true | String _ _ => false end.

(** ASCII case mapping used by the component instance: [A]..[Z] go to
    [a]..[z], every other character is kept.  It is
    [String.prototype.toLowerCase] on texts without letters outside
    ASCII. *)
Definition lowerChar (c : ascii) : ascii :=
  let n := nat_of_ascii c in
  if ((65 <=? n)%nat && (n <=? 90)%nat)%bool then ascii_of_nat (n + 32) else c.

Fixpoint toLowerCase (s : string) : string :=
  match s with
  | EmptyString => EmptyString
  | String c s' => String (lowerChar c) (toLowerCase s')
  end.

(** HTML's ASCII whitespace, which separates the tokens of a class
    attribute: tab, line feed, form feed, carriage return, space. *)
Definition isHTMLSpace (c : ascii) : bool :=
  let n := nat_of_ascii c in
  ((n =? 32)%nat || (n =? 9)%nat || (n =? 10)%nat || (n =? 12)%nat ||
   (n =? 13)%nat)%bool.

(** ** The specification's notion of token

    Follows the spec's words, not the source: the whitespace-delimited
    tokens of a text are its maximal runs of non-whitespace characters
    (whitespace being space, tab, line feed, vertical tab, form feed and
    carriage return). *)
Definition isWhitespace (c : ascii) : bool :=
  let n := nat_of_ascii c in
  ((n =? 32)%nat || ((9 <=? n)%nat && (n <=? 13)%nat))%bool.

Definition whitespace_tokens (s : string) : list string :=
  filter (fun w => negb (isEmpty w)) (splitBy isWhitespace s).

(** ** Host configuration (lines 5-15) *)

(** The props object as the host passes it: a field that is left out (or
    passed as [undefined]) is [None]. *)
Record HostProps := {
  h_text : option string;
  h_highlightWords : option (list string);
  h_highlightClass : option string;
  h_trigger : option string;
  h_backgroundColor : option string;
  h_wireframes : option bool;
  h_gravity : option Q;
  h_mouseConstraintStiffness : option Q;
  h_fontSize : option string
}.

(** The destructured parameters of the component. *)
Record Props := {
  text : string;
  highlightWords : list string;
  highlightClass : string;
  trigger : string;
  backgroundColor : string;
  wireframes : bool;
  gravity : Q;
  mouseConstraintStiffness : Q;
  fontSize : string
}.

Definition orDefault {A} (d : A) (o : option A) : A :=
  match o with Some a => a | None => d end.

(** Parameter destructuring with default values. *)
Definition FallingText_props (h : HostProps) : Props := {|
  text := orDefault EmptyString (h_text h);
  highlightWords := orDefault [] (h_highlightWords h);
  highlightClass := orDefault "highlighted" (h_highlightClass h);
  trigger := orDefault "auto" (h_trigger h);
  backgroundColor := orDefault "transparent" (h_backgroundColor h);
  wireframes := orDefault false (h_wireframes h);
  gravity := orDefault 1%Q (h_gravity h);
  mouseConstraintStiffness := orDefault 0.2%Q (h_mouseConstraintStiffness h);
  fontSize := orDefault "1rem" (h_fontSize h)
|}.

Definition noProps : HostProps :=
  Build_HostProps None None None None None None None None None.

(** A field is required when a props object that leaves it out is not
    accepted; the component accepts every props object, so the predicate
    below says which fields the host supplied. *)
Definition allSupplied (h : HostProps) : bool :=
  match h with
  | Build_HostProps (Some _) (Some _) (Some _) (Some _) (Some _)
                    (Some _) (Some _) (Some _) (Some _) => true
  | _ => false
  end.

(** ** TokenRenderer: the text-display effect (lines 30-53) *)

(** A [span] element written into the text target, with its [class]
    attribute as written. *)
Record Span := {
  className : string;
  textContent : string
}.

Definition quote : string := String (ascii_of_nat 34) EmptyString.

Section TokenRenderer.

(** [String.prototype.toLowerCase] *)
Variable lower : string -> string.

(** [highlightWords.some(hw => word.toLowerCase() === hw.toLowerCase())] *)
Definition isHighlighted (hws : list string) (word : string) : bool :=
  existsb (fun hw => String.eqb (lower word) (lower hw)) hws.

(** The class attribute: [word] followed by the highlight class when the
    word is highlighted, and by nothing otherwise. *)
Definition wordClass (hws : list string) (hc : string) (word : string) : string :=
  "word " ++ (if isHighlighted hws word then hc else EmptyString).

Definition wordSpan (hws : list string) (hc : string) (word : string) : Span :=
  {| className := wordClass hws hc word; textContent := word |}.

Definition wordHTML (hws : list string) (hc : string) (word : string) : string :=
  "<span class=" ++ quote ++ wordClass hws hc word ++ quote ++ ">" ++
  word ++ "</span>".

(** [newHTML]: the markup assigned to [innerHTML]. *)
Definition newHTML (p : Props) : string :=
  join (map (wordHTML (highlightWords p) (highlightClass p)) (split (text p))).

(** The elements that markup puts under the text target: one span per
    piece, in order.  This is what the browser's parser makes of [newHTML]
    when the pieces and the class carry no markup of their own (see
    [plainProps] and [parseHTML] below). *)
Definition renderWords (p : Props) : list Span :=
  map (wordSpan (highlightWords p) (highlightClass p)) (split (text p)).

End TokenRenderer.

(** *** The markup as the browser reads it

    The text effect hands its markup to the browser (line 47), and the
    spans of the text target are what the browser's parser makes of it.
    The pieces and the class reach the DOM as they are when the text has
    none of the characters that the parser treats specially in character
    data (the less-than sign, the ampersand, NUL and the carriage return),
    and the class, which is written as an attribute value in double quotes,
    has none of these nor the double quote. *)
Definition markupChar (a : ascii) : bool :=
  let n := nat_of_ascii a in
  ((n =? 0) || (n =? 13) || (n =? 38) || (n =? 60))%nat.

Definition plainText (t : string) : bool :=
  allChars (fun a => negb (markupChar a)) t.

Definition plainClass (s : string) : bool :=
  allChars (fun a => negb (markupChar a || (nat_of_ascii a =? 34)%nat)) s.

Definition plainProps (p : Props) : bool :=
  plainText (text p) && plainClass (highlightClass p).

(** [stripPrefix pre s]: what follows [pre] in [s], when [s] starts with it. *)
Fixpoint stripPrefix (pre s : string) : option string :=
  match pre, s with
  | EmptyString, _ => Some s
  | String a pre', String b s' =>
      if Ascii.eqb a b then stripPrefix pre' s' else None
  | String _ _, EmptyString => None
  end.

(** [takeUntil stop s]: the characters of [s] before the first one that
    satisfies [stop], and the rest from that one on. *)
Fixpoint takeUntil (stop : ascii -> bool) (s : string) : string * string :=
  match s with
  | EmptyString => (EmptyString, EmptyString)
  | String a s' =>
      if stop a then (EmptyString, s)
      else let '(w, r) := takeUntil stop s' in (String a w, r)
  end.

Definition isQuote (a : ascii) : bool := (nat_of_ascii a =? 34)%nat.
Definition isLess (a : ascii) : bool := (nat_of_ascii a =? 60)%nat.

(** The parser on one span element with a plain class and plain text:
    the element and what follows it.  [None] on anything else. *)
Definition parseSpan (s : string) : option (Span * string) :=
  match stripPrefix ("<span class=" ++ quote) s with
  | None => None
  | Some s1 =>
      let '(cls, r1) := takeUntil isQuote s1 in
      if negb (plainClass cls) then None else
      match stripPrefix (quote ++ ">") r1 with
      | None => None
      | Some r2 =>
          let '(txt, r3) := takeUntil isLess r2 in
          if negb (plainText txt) then None else
          match stripPrefix "</span>" r3 with
          | None => None
          | Some r4 => Some ({| className := cls; textContent := txt |}, r4)
          end
      end
  end.

(** The element children the parser gives for a markup made of such spans
    with single spaces between them; the text nodes between the spans are
    left out. *)
Fixpoint parseSpans (fuel : nat) (s : string) : option (list Span) :=
  match fuel with
  | O => None
  | S fuel' =>
      match parseSpan s with
      | None => None
      | Some (sp, rest) =>
          match rest with
          | EmptyString => Some [sp]
          | String a rest' =>
              if isSpace a
              then option_map (cons sp) (parseSpans fuel' rest')
              else None
          end
      end
  end.

Definition parseHTML (s : string) : option (list Span) :=
  parseSpans (S (String.length s)) s.

(** The class tokens of an element: its class attribute cut at HTML
    whitespace, empty pieces dropped. *)
Definition classTokens (cls : string) : list string :=
  filter (fun w => negb (isEmpty w)) (splitBy isHTMLSpace cls).

Definition hasClass (c : string) (sp : Span) : bool :=
  existsb (String.eqb c) (classTokens (className sp)).

(** [querySelectorAll(".word")] over the children of the text target. *)
Definition querySelectorAll_word (dom : list Span) : list Span :=
  filter (hasClass "word") dom.

(** ** The environment: layout, random draws, matter-js *)

(** A [DOMRect] as [getBoundingClientRect] returns it. *)
Record Rect := {
  r_left : Q;
  r_top : Q;
  r_width : Q;
  r_height : Q
}.

(** What the browser would measure: the container's rectangle and the
    rectangle of the i-th word span. *)
Record Layout := {
  containerRect : Rect;
  spanRect : nat -> Rect
}.

(** Options given to [Bodies.rectangle] for a word body. *)
Record Material := {
  restitution : Q;
  frictionAir : Q;
  friction : Q
}.

(** A matter-js body as the component configures it; [material = None]
    leaves the engine's own material constants. *)
Record Body := {
  b_x : Q;
  b_y : Q;
  b_width : Q;
  b_height : Q;
  isStatic : bool;
  material : option Material;
  velocity_x : Q;
  velocity_y : Q;
  angularVelocity : Q
}.

Inductive WorldItem :=
| W_body (b : Body)
| W_mouseConstraint (stiffness : Q).

(** Calls made to the DOM and to matter-js, in program order. *)
Inductive Call :=
| SetInnerHTML (html : string)
| Engine_create (gravityY : Q)
| Render_create (w h : Q) (background : string) (wire : bool)
| Bodies_rectangle (x y w h : Q) (static : bool)
| Body_setVelocity (vx vy : Q)
| Body_setAngularVelocity (w : Q)
| Mouse_create
| MouseConstraint_create (stiffness : Q)
| World_add (items : nat)
| Runner_create
| Runner_run
| Render_run
| Render_stop
| Runner_stop
| RemoveChild (canvas : nat)
| World_clear
| Engine_clear
| Observer_observe (threshold : Q)
| Observer_disconnect.

(** The calls that allocate a world, a renderer, a body, a constraint or a
    runner. *)
Definition isResourceCreation (c : Call) : bool :=
  match c with
  | Engine_create _ | Render_create _ _ _ _ | Bodies_rectangle _ _ _ _ _
  | Mouse_create | MouseConstraint_create _ | Runner_create => true
  | _ => false
  end.

Definition isMarkup (c : Call) : bool :=
  match c with SetInnerHTML _ => true | _ => false end.

Inductive Exn :=
| NotFoundError.

(** What the cleanup closure of the physics effect captures. *)
Record Session := {
  engineId : nat;
  engineGravity : Q;
  renderCanvas : nat;
  world : list WorldItem;
  wordBodies : list (nat * Body)
}.

(** ** Session construction (lines 129-200) *)

Definition boundary (x y w h : Q) : Body :=
  {| b_x := x; b_y := y; b_width := w; b_height := h; isStatic := true;
     material := None; velocity_x := 0; velocity_y := 0;
     angularVelocity := 0 |}.

Definition floor (width height : Q) : Body :=
  boundary (width / 2) (height + 25) width 50.
Definition leftWall (width height : Q) : Body :=
  boundary (-25) (height / 2) 50 height.
Definition rightWall (width height : Q) : Body :=
  boundary (width + 25) (height / 2) 50 height.
Definition ceiling (width height : Q) : Body :=
  boundary (width / 2) (-25) width 50.

Definition boundaries (width height : Q) : list Body :=
  [floor width height; leftWall width height;
   rightWall width height; ceiling width height].

Definition wordMaterial : Material :=
  {| restitution := 0.8; frictionAir := 0.01; friction := 0.2 |}.

(** The body of one word span: measured relative to the container, then
    given a velocity from one [Math.random] draw and an angular velocity
    from the next. *)
Definition wordBody (crect rect : Rect) (r1 r2 : Q) : Body :=
  {| b_x := r_left rect - r_left crect + r_width rect / 2;
     b_y := r_top rect - r_top crect + r_height rect / 2;
     b_width := r_width rect;
     b_height := r_height rect;
     isStatic := false;
     material := Some wordMaterial;
     velocity_x := (r1 - 0.5) * 5;
     velocity_y := 0;
     angularVelocity := (r2 - 0.5) * 0.05 |}.

(** [[...wordSpans].map(elem => ...)]: [i] is the index of the element
    among the word spans and [k] the number of draws made so far. *)
Fixpoint makeWordBodies (lay : Layout) (random : nat -> Q) (k i : nat)
    (spans : list Span) : list (nat * Body) :=
  match spans with
  | [] => []
  | _ :: rest =>
      (i, wordBody (containerRect lay) (spanRect lay i)
                   (random k) (random (S k)))
      :: makeWordBodies lay random (S (S k)) (S i) rest
  end.

Definition bodyCall (b : Body) : Call :=
  Bodies_rectangle (b_x b) (b_y b) (b_width b) (b_height b) (isStatic b).

Definition wordCalls (wb : nat * Body) : list Call :=
  [bodyCall (snd wb);
   Body_setVelocity (velocity_x (snd wb)) (velocity_y (snd wb));
   Body_setAngularVelocity (angularVelocity (snd wb))].

(** ** The component instance *)

(** The two [useState] cells. *)
Record Hooks := {
  effectStarted : bool;
  isInitialized : bool
}.

Definition hooks_eqb (a b : Hooks) : bool :=
  Bool.eqb (effectStarted a) (effectStarted b) &&
  Bool.eqb (isInitialized a) (isInitialized b).

(** The intersection observer made by the trigger effect; [connected]
    turns false once [disconnect] has been called. *)
Record Observer := {
  threshold : Q;
  connected : bool
}.

(** A mounted instance: the props and state of its last render, the DOM
    under its refs, the cleanups React holds for it, and the environment.
    [wordsStable] says whether [highlightWords] is an array the host passes:
    when the prop is left out, the default [[]] of the parameter list is a
    new array in every render, so the text effect sees a changed dependency
    each time. *)
Record Comp := {
  props : Props;
  hooks : Hooks;
  textDom : list Span;
  canvasDom : list nat;
  observer : option Observer;
  session : option Session;
  layout : Layout;
  random : nat -> Q;
  draws : nat;
  nextId : nat;
  log : list Call;
  thrown : list Exn;
  wordsStable : bool
}.

Definition withHooks (h : Hooks) (c : Comp) : Comp :=
  {| props := props c; hooks := h; textDom := textDom c;
     canvasDom := canvasDom c; observer := observer c; session := session c;
     layout := layout c; random := random c; draws := draws c;
     nextId := nextId c; log := log c; thrown := thrown c;
     wordsStable := wordsStable c |}.

Definition withLayout (l : Layout) (c : Comp) : Comp :=
  {| props := props c; hooks := hooks c; textDom := textDom c;
     canvasDom := canvasDom c; observer := observer c; session := session c;
     layout := l; random := random c; draws := draws c;
     nextId := nextId c; log := log c; thrown := thrown c;
     wordsStable := wordsStable c |}.

Definition withObserver (o : option Observer) (calls : list Call) (c : Comp) : Comp :=
  {| props := props c; hooks := hooks c; textDom := textDom c;
     canvasDom := canvasDom c; observer := o; session := session c;
     layout := layout c; random := random c; draws := draws c;
     nextId := nextId c; log := log c ++ calls; thrown := thrown c;
     wordsStable := wordsStable c |}.

(** *** Text-display effect (lines 30-53)

    The text target is always rendered, so [textRef.current] is set when
    the effect runs.  Returns the instance and the state update.  The
    spans put under the text target are those of [renderWords]: they are
    the browser's reading of the markup for props that satisfy [plainProps]
    ([parseHTML_newHTML]). *)
Definition textEffect (pending : Hooks) (c : Comp) : Comp * Hooks :=
  ({| props := props c; hooks := hooks c;
      textDom := renderWords toLowerCase (props c);
      canvasDom := canvasDom c; observer := observer c; session := session c;
      layout := layout c; random := random c; draws := draws c;
      nextId := nextId c;
      log := log c ++ [SetInnerHTML (newHTML toLowerCase (props c))];
      thrown := thrown c;
      wordsStable := wordsStable c |},
   {| effectStarted := effectStarted pending; isInitialized := true |}).

(** *** Trigger effect (lines 56-79) *)

Definition triggerCleanup (c : Comp) : Comp :=
  match observer c with
  | None => c
  | Some o =>
      withObserver None [Observer_disconnect] c
  end.

Definition triggerEffect (pending : Hooks) (c : Comp) : Comp * Hooks :=
  if negb (isInitialized (hooks c)) then (c, pending)
  else if String.eqb (trigger (props c)) "auto" then
    (c, {| effectStarted := true; isInitialized := isInitialized pending |})
  else if String.eqb (trigger (props c)) "scroll" then
    (withObserver (Some {| threshold := 0.1; connected := true |})
                  [Observer_observe 0.1] c, pending)
  else (c, pending).

(** *** Physics effect (lines 82-243) *)

Definition degenerate (r : Rect) : bool :=
  Qle_bool (r_width r) 0 || Qle_bool (r_height r) 0.

(** The value of everything the effect builds when it gets past its
    guards. *)
Definition buildSession (c : Comp) : Session :=
  let width := r_width (containerRect (layout c)) in
  let height := r_height (containerRect (layout c)) in
  let wbs := makeWordBodies (layout c) (random c) (draws c) 0
               (querySelectorAll_word (textDom c)) in
  {| engineId := nextId c;
     engineGravity := gravity (props c);
     renderCanvas := S (nextId c);
     world := map W_body (boundaries width height) ++
              W_mouseConstraint (mouseConstraintStiffness (props c)) ::
              map (fun wb => W_body (snd wb)) wbs;
     wordBodies := wbs |}.

Definition buildCalls (c : Comp) (s : Session) : list Call :=
  let width := r_width (containerRect (layout c)) in
  let height := r_height (containerRect (layout c)) in
  [Engine_create (gravity (props c));
   Render_create width height (backgroundColor (props c)) (wireframes (props c))]
  ++ map bodyCall (boundaries width height)
  ++ flat_map wordCalls (wordBodies s)
  ++ [Mouse_create;
      MouseConstraint_create (mouseConstraintStiffness (props c));
      World_add (length (world s));
      Runner_create; Runner_run; Render_run].

Definition physicsEffect (c : Comp) : Comp :=
  if negb (effectStarted (hooks c)) || negb (isInitialized (hooks c)) then c
  else if degenerate (containerRect (layout c)) then c
  else
    let s := buildSession c in
    {| props := props c; hooks := hooks c; textDom := textDom c;
       canvasDom := canvasDom c ++ [renderCanvas s];
       observer := observer c;
       session := Some s;
       layout := layout c; random := random c;
       draws := draws c + 2 * length (wordBodies s);
       nextId := S (S (nextId c));
       log := log c ++ buildCalls c s;
       thrown := thrown c;
       wordsStable := wordsStable c |}.

(** The cleanup closure (lines 224-235); [refAttached] says whether
    [canvasContainerRef.current] is still set.  [removeChild] throws when
    the canvas is not a child of the canvas container, and the two calls
    after it are then not reached. *)
Definition cleanup (refAttached : bool) (s : Session) (c : Comp) : Comp :=
  let removes := refAttached in
  let missing := removes && negb (existsb (Nat.eqb (renderCanvas s)) (canvasDom c)) in
  {| props := props c; hooks := hooks c; textDom := textDom c;
     canvasDom := if removes
                  then filter (fun k => negb (Nat.eqb (renderCanvas s) k)) (canvasDom c)
                  else canvasDom c;
     observer := observer c;
     session := session c;
     layout := layout c; random := random c; draws := draws c;
     nextId := nextId c;
     log := log c ++ [Render_stop; Runner_stop] ++
            (if removes then [RemoveChild (renderCanvas s)] else []) ++
            (if missing then [] else [World_clear; Engine_clear]);
     thrown := thrown c ++ (if missing then [NotFoundError] else []);
     wordsStable := wordsStable c |}.

Definition clearSession (c : Comp) : Comp :=
  {| props := props c; hooks := hooks c; textDom := textDom c;
     canvasDom := canvasDom c; observer := observer c; session := None;
     layout := layout c; random := random c; draws := draws c;
     nextId := nextId c; log := log c; thrown := thrown c;
     wordsStable := wordsStable c |}.

(** Teardown as React performs it: the cleanup registered by the last run
    of the physics effect is called once and then forgotten; when that run
    returned nothing there is nothing to call. *)
Definition teardown (refAttached : bool) (c : Comp) : Comp :=
  match session c with
  | None => c
  | Some s => clearSession (cleanup refAttached s c)
  end.

(** ** React: commits, re-renders and events *)

(** Dependency arrays compared with those of the previous render ([None]
    on mount).  [sameWords] says whether [highlightWords] is the same array
    object as before, which is what React compares. *)
Definition textDepsChanged (prev : option (Props * Hooks)) (sameWords : bool)
    (c : Comp) : bool :=
  match prev with
  | None => true
  | Some (p, _) =>
      negb (String.eqb (text p) (text (props c))) ||
      negb sameWords ||
      negb (String.eqb (highlightClass p) (highlightClass (props c)))
  end.

Definition triggerDepsChanged (prev : option (Props * Hooks)) (c : Comp) : bool :=
  match prev with
  | None => true
  | Some (p, h) =>
      negb (String.eqb (trigger p) (trigger (props c))) ||
      negb (Bool.eqb (isInitialized h) (isInitialized (hooks c)))
  end.

Definition physicsDepsChanged (prev : option (Props * Hooks)) (c : Comp) : bool :=
  match prev with
  | None => true
  | Some (p, h) =>
      negb (Bool.eqb (effectStarted h) (effectStarted (hooks c))) ||
      negb (Bool.eqb (isInitialized h) (isInitialized (hooks c))) ||
      negb (Qeq_bool (gravity p) (gravity (props c))) ||
      negb (Bool.eqb (wireframes p) (wireframes (props c))) ||
      negb (String.eqb (backgroundColor p) (backgroundColor (props c))) ||
      negb (Qeq_bool (mouseConstraintStiffness p)
                     (mouseConstraintStiffness (props c)))
  end.

(** One commit: the three effects in source order, each preceded by the
    cleanup of its previous run when its dependencies changed.  React runs
    all the cleanups of a commit before its effects; a cleanup and the
    effects of the other hooks touch disjoint parts of the instance, so the
    instance a commit leaves is the same either way, and only the place of
    the cleanup's calls among the other calls of that commit in the log
    differs.  The result carries the state the effects asked for. *)
Definition commit (prev : option (Props * Hooks)) (sameWords : bool)
    (c : Comp) : Comp * Hooks :=
  let pending := hooks c in
  let '(c1, pending1) :=
    if textDepsChanged prev sameWords c then textEffect pending c
    else (c, pending) in
  let '(c2, pending2) :=
    if triggerDepsChanged prev c1 then triggerEffect pending1 (triggerCleanup c1)
    else (c1, pending1) in
  let c3 :=
    if physicsDepsChanged prev c2 then physicsEffect (teardown true c2)
    else c2 in
  (c3, pending2).

(** Renders again while a commit leaves a state update behind; in such a
    render the highlight array is the one of the render before only when
    the host passes it. *)
Fixpoint rerender (fuel : nat) (prev : option (Props * Hooks)) (sameWords : bool)
    (c : Comp) : Comp :=
  let '(c', pending) := commit prev sameWords c in
  if hooks_eqb pending (hooks c) then c'
  else match fuel with
       | O => c'
       | S fuel' =>
           rerender fuel' (Some (props c, hooks c)) (wordsStable c)
                    (withHooks pending c')
       end.

(** Each of the two state cells changes at most once, so two further
    renders always suffice (see [rerender_fuel]). *)
Definition renderLoop := rerender 2.

(** Setting state from an event handler. *)
Definition setState (h : Hooks) (c : Comp) : Comp :=
  if hooks_eqb h (hooks c) then c
  else renderLoop (Some (props c, hooks c)) (wordsStable c) (withHooks h c).

(** Whether the host passes a [highlightWords] array of its own. *)
Definition suppliesWords (h : HostProps) : bool :=
  match h_highlightWords h with Some _ => true | None => false end.

(** The instance before its first commit. *)
Definition unmounted (h : HostProps) (lay : Layout) (rnd : nat -> Q) : Comp :=
  {| props := FallingText_props h;
     hooks := {| effectStarted := false; isInitialized := false |};
     textDom := []; canvasDom := []; observer := None; session := None;
     layout := lay; random := rnd; draws := 0; nextId := 0;
     log := []; thrown := []; wordsStable := suppliesWords h |}.

(** The instance as the host renders it again with props [h]. *)
Definition withHost (h : HostProps) (c : Comp) : Comp :=
  {| props := FallingText_props h; hooks := hooks c; textDom := textDom c;
     canvasDom := canvasDom c; observer := observer c; session := session c;
     layout := layout c; random := random c; draws := draws c;
     nextId := nextId c; log := log c; thrown := thrown c;
     wordsStable := suppliesWords h |}.

Definition mount (h : HostProps) (lay : Layout) (rnd : nat -> Q) : Comp :=
  renderLoop None true (unmounted h lay rnd).

(** An [IntersectionObserverEntry], as far as the callback can see it. *)
Record Entry := {
  isIntersecting : bool;
  intersectionRatio : Q
}.

(** [Render h sameWords]: the host renders the component with props [h];
    [sameWords] says whether it passes the highlight array it passed
    before, which only an array of the host's own can be. *)
Inductive Event :=
| Render (h : HostProps) (sameWords : bool)
| Click
| MouseOver
| Intersection (entry : Entry) (more : list Entry)
| Relayout (lay : Layout).

(** [handleTrigger] (lines 246-251) *)
Definition handleTrigger (c : Comp) : Comp :=
  if negb (effectStarted (hooks c)) &&
     (String.eqb (trigger (props c)) "click" ||
      String.eqb (trigger (props c)) "hover")
  then setState {| effectStarted := true;
                   isInitialized := isInitialized (hooks c) |} c
  else c.

(** The observer callback (lines 67-73); it looks at the first entry of
    the batch only. *)
Definition observerCallback (entry : Entry) (c : Comp) : Comp :=
  if isIntersecting entry then
    setState {| effectStarted := true;
                isInitialized := isInitialized (hooks c) |}
      (withObserver
         (option_map (fun o => {| threshold := threshold o; connected := false |})
                     (observer c))
         [Observer_disconnect] c)
  else c.

Definition observing (c : Comp) : bool :=
  match observer c with
  | Some o => connected o
  | None => false
  end.

Definition step (c : Comp) (e : Event) : Comp :=
  match e with
  | Render h sameWords =>
      renderLoop (Some (props c, hooks c))
                 (sameWords && wordsStable c && suppliesWords h)
                 (withHost h c)
  | Click =>
      if String.eqb (trigger (props c)) "click" then handleTrigger c else c
  | MouseOver =>
      if String.eqb (trigger (props c)) "hover" then handleTrigger c else c
  | Intersection entry _ =>
      if observing c then observerCallback entry c else c
  | Relayout lay => withLayout lay c
  end.

Definition run (c : Comp) (es : list Event) : Comp := fold_left step es c.

(** Unmounting runs the cleanups that are still registered. *)
Definition unmount (refAttached : bool) (c : Comp) : Comp :=
  teardown refAttached (triggerCleanup c).

Inductive reachable : Comp -> Prop :=
| reach_mount : forall h lay rnd, reachable (mount h lay rnd)
| reach_step : forall c e, reachable c -> reachable (step c e).

(** The activation controller's state as the spec names it. *)
Inductive Activation := Idle | Active.

Definition activation (c : Comp) : Activation :=
  if effectStarted (hooks c) then Active else Idle.

(** ** Notions used in the statements *)

(** *** Worlds and logs *)

(** The bodies among the items of a world. *)
Definition bodiesOf (w : list WorldItem) : list Body :=
  flat_map (fun it => match it with W_body b => [b] | W_mouseConstraint _ => [] end) w.

Definition tokenBodyCount (c : Comp) : nat :=
  match session c with
  | Some s => length (wordBodies s)
  | None => 0
  end.

Definition creations (c : Comp) : list Call := filter isResourceCreation (log c).

Definition noCreation (l : list Call) : bool :=
  forallb (fun c => negb (isResourceCreation c)) l.

Definition hasMarkup (l : list Call) : bool := existsb isMarkup l.

(** Walking the log from its start, no resource is created before the
    first write of the token markup. *)
Fixpoint markupFirst (l : list Call) : bool :=
  match l with
  | [] => true
  | c :: l' =>
      if isMarkup c then true
      else negb (isResourceCreation c) && markupFirst l'
  end.

(** The log only grows. *)
Definition logGrows (c c' : Comp) : Prop :=
  exists l, log c' = (log c ++ l)%list.

(** *** The stages of a commit, named *)

Definition afterText (prev : option (Props * Hooks)) (sameWords : bool) (c : Comp) : Comp :=
  if textDepsChanged prev sameWords c then fst (textEffect (hooks c) c) else c.

Definition afterTrigger (prev : option (Props * Hooks)) (sameWords : bool) (c : Comp) : Comp :=
  let c1 := afterText prev sameWords c in
  if triggerDepsChanged prev c1
  then fst (triggerEffect (hooks c) (triggerCleanup c1))
  else c1.

Definition committed (prev : option (Props * Hooks)) (sameWords : bool) (c : Comp) : Comp :=
  let c2 := afterTrigger prev sameWords c in
  if physicsDepsChanged prev c then physicsEffect (teardown true c2) else c2.

(** The state a commit asks for. *)
Definition pendingOf (prev : option (Props * Hooks)) (sameWords : bool) (c : Comp) : Hooks :=
  {| effectStarted :=
       effectStarted (hooks c) ||
       (triggerDepsChanged prev c && isInitialized (hooks c) &&
        String.eqb (trigger (props c)) "auto");
     isInitialized :=
       isInitialized (hooks c) || textDepsChanged prev sameWords c |}.

(** What a commit leaves alone. *)
Record sameFrame (c c' : Comp) : Prop := {
  fr_props : props c' = props c;
  fr_hooks : hooks c' = hooks c;
  fr_layout : layout c' = layout c;
  fr_random : random c' = random c
}.

(** A stage is quiet when it makes no resource-creation call and starts
    no session. *)
Record quiet (c c' : Comp) : Prop := {
  q_creations : creations c' = creations c;
  q_session : session c = None -> session c' = None;
  q_layout : layout c' = layout c
}.

(** The state cells only ever go from false to true. *)
Definition hooks_le (a b : Hooks) : Prop :=
  (effectStarted a = true -> effectStarted b = true) /\
  (isInitialized a = true -> isInitialized b = true).

Definition falseBits (h : Hooks) : nat :=
  (if effectStarted h then 0 else 1) + (if isInitialized h then 0 else 1).

(** *** Invariants *)

(** The text target holds the rendering of the current text (under the
    highlight list and class of the last run of the text effect). *)
Definition domOK (c : Comp) : Prop :=
  exists hws hc,
    textDom c = map (wordSpan toLowerCase hws hc) (split (text (props c))).

(** Holds between any two commits: nothing was thrown, the canvas
    container holds the canvas of the live session and nothing else, a live
    session was built by the physics effect with both flags set, and the
    log has the token markup before any resource creation. *)
Record Sound (c : Comp) : Prop := {
  snd_thrown : thrown c = [];
  snd_canvas :
    canvasDom c = match session c with
                  | Some s => [renderCanvas s]
                  | None => []
                  end;
  snd_session :
    session c <> None ->
    effectStarted (hooks c) = true /\ isInitialized (hooks c) = true;
  snd_built :
    forall s, session c = Some s ->
    exists c0, s = buildSession c0 /\
               degenerate (containerRect (layout c0)) = false;
  snd_markup : isInitialized (hooks c) = true -> hasMarkup (log c) = true;
  snd_order : markupFirst (log c) = true;
  snd_started :
    effectStarted (hooks c) = true -> isInitialized (hooks c) = true
}.

(** Holds of every reachable instance. *)
Record Inv (c : Comp) : Prop := {
  inv_sound : Sound c;
  inv_dom : domOK c;
  inv_init : isInitialized (hooks c) = true
}.

(** *** Triggers *)

Definition manualTrigger (c : Comp) : bool :=
  String.eqb (trigger (props c)) "click" || String.eqb (trigger (props c)) "hover".

(** The pointer event the container listens to under a trigger mode. *)
Definition boundEvent (trig : string) (e : Event) : Prop :=
  (trig = "click" /\ e = Click) \/ (trig = "hover" /\ e = MouseOver).



(** *** Example data *)

(** The defaults of the parameter list, as one value. *)
Definition defaultProps : Props :=
  {| text := EmptyString;
     highlightWords := [];
     highlightClass := "highlighted";
     trigger := "auto";
     backgroundColor := "transparent";
     wireframes := false;
     gravity := 1;
     mouseConstraintStiffness := 0.2;
     fontSize := "1rem" |}.

(** A host in the manner of [App.js]. *)
Definition exampleHost (t trig : string) : HostProps :=
  {| h_text := Some t;
     h_highlightWords := Some ["beta"];
     h_highlightClass := Some "highlighted";
     h_trigger := Some trig;
     h_backgroundColor := Some "transparent";
     h_wireframes := Some false;
     h_gravity := Some 0.56%Q;
     h_mouseConstraintStiffness := Some 0.9%Q;
     h_fontSize := Some "2rem" |}.

Definition exampleLayout (width height : Q) : Layout :=
  {| containerRect := {| r_left := 8; r_top := 8;
                         r_width := width; r_height := height |};
     spanRect := fun i =>
       {| r_left := 8 + 60 * inject_Z (Z.of_nat i); r_top := 8;
          r_width := 50; r_height := 20 |} |}.

Definition exampleRandom (k : nat) : Q := inject_Z (Z.of_nat (k mod 4)) / 4.

Definition autoComp : Comp :=
  mount (exampleHost "Alpha Beta Gamma" "auto") (exampleLayout 300 100)
        exampleRandom.

Definition clickComp : Comp :=
  mount (exampleHost "Alpha Beta Gamma" "click") (exampleLayout 300 100)
        exampleRandom.

(** An active instance whose session has been torn down. *)
Definition exampleComp : Comp := teardown true autoComp.

Definition tab : string := String (ascii_of_nat 9) EmptyString.

(** ** Notions used in the further properties *)

(** The host of [App.js] (lines 6-26) for a word list: the text is the
    words joined by single spaces and the highlight list is the word list
    itself. *)
Definition appHost (words : list string) : HostProps :=
  {| h_text := Some (join words);
     h_highlightWords := Some words;
     h_highlightClass := Some "highlighted";
     h_trigger := Some "hover";
     h_backgroundColor := Some "transparent";
     h_wireframes := Some false;
     h_gravity := Some 0.56%Q;
     h_mouseConstraintStiffness := Some 0.9%Q;
     h_fontSize := Some "2rem" |}.

Definition appWords : list string :=
  ["Marketing"; "SEO"; "PPC"; "Search"; "Leads"; "Creatives";
   "Sales"; "Strategy"; "Conversions"; "APP Development";
   "Website Development"; "Social Media"; "Graphic Designing";
   "Media House"; "Podcast"].

Definition spaceFree (w : string) : bool :=
  (countChars isSpace w =? 0)%nat.




(** Events by kind. *)
Definition isHostRender (e : Event) : bool :=
  match e with Render _ _ => true | _ => false end.

Definition isRelayout (e : Event) : bool :=
  match e with Relayout _ => true | _ => false end.

(** The instance right after the first commit of a mount: the markup is
    written and the initialization flag is set. *)
Definition initialized (h : HostProps) (lay : Layout) (rnd : nat -> Q) : Comp :=
  withHooks {| effectStarted := false; isInitialized := true |}
    (fst (textEffect {| effectStarted := false; isInitialized := false |}
            (unmounted h lay rnd))).

(** The pointer constraints among the items of a world, by stiffness. *)
Definition constraintsOf (w : list WorldItem) : list Q :=
  flat_map (fun it => match it with
                      | W_mouseConstraint k => [k]
                      | W_body _ => []
                      end) w.

(** The calls of a cleanup that runs to its end (lines 225-234). *)
Definition cleanupCalls (refAttached : bool) (s : Session) : list Call :=
  [Render_stop; Runner_stop] ++
  (if refAttached then [RemoveChild (renderCanvas s)] else []) ++
  [World_clear; Engine_clear].

(** The cleanups an instance holds agree with props [p]: a live session
    was built under the gravity and the stiffness of [p], and an observer is
    held only under trigger [scroll]. *)
Record Tuned (p : Props) (c : Comp) : Prop := {
  tn_session :
    forall s, session c = Some s ->
      (engineGravity s == gravity p)%Q /\
      exists k, constraintsOf (world s) = [k] /\
                (k == mouseConstraintStiffness p)%Q;
  tn_observer :
    forall o, observer c = Some o ->
      trigger p = "scroll" /\ threshold o = 0.1%Q
}.

(** What [Tuned] asks of the instance a commit starts from. *)
Definition tunedBefore (prev : option (Props * Hooks)) (c : Comp) : Prop :=
  match prev with
  | Some (p, _) => Tuned p c
  | None => session c = None /\ observer c = None
  end.

(** The four props the physics effect depends on differ between [p] and
    [q] (numbers compared as numbers). *)
Definition physicsPropsDiffer (p q : Props) : bool :=
  negb (Qeq_bool (gravity p) (gravity q)) ||
  negb (Bool.eqb (wireframes p) (wireframes q)) ||
  negb (String.eqb (backgroundColor p) (backgroundColor q)) ||
  negb (Qeq_bool (mouseConstraintStiffness p) (mouseConstraintStiffness q)).

(** A host like [exampleHost] with its gravity and stiffness given. *)
Definition tunedHost (t trig : string) (g k : Q) : HostProps :=
  {| h_text := Some t;
     h_highlightWords := Some ["beta"];
     h_highlightClass := Some "highlighted";
     h_trigger := Some trig;
     h_backgroundColor := Some "transparent";
     h_wireframes := Some false;
     h_gravity := Some g;
     h_mouseConstraintStiffness := Some k;
     h_fontSize := Some "2rem" |}.

Definition scrollComp : Comp :=
  mount (exampleHost "Alpha Beta Gamma" "scroll") (exampleLayout 300 100)
        exampleRandom.

(** Calls that open and close a resource. *)
Definition isEngineCreate (c : Call) : bool :=
  match c with Engine_create _ => true | _ => false end.
Definition isEngineClear (c : Call) : bool :=
  match c with Engine_clear => true | _ => false end.
Definition isRunnerRun (c : Call) : bool :=
  match c with Runner_run => true | _ => false end.
Definition isRunnerStop (c : Call) : bool :=
  match c with Runner_stop => true | _ => false end.
Definition isRenderRun (c : Call) : bool :=
  match c with Render_run => true | _ => false end.
Definition isRenderStop (c : Call) : bool :=
  match c with Render_stop => true | _ => false end.

Definition isObserverCall (c : Call) : bool :=
  match c with Observer_observe _ | Observer_disconnect => true | _ => false end.

(** Walks a log in which a resource is opened and closed: [None] when it is
    opened while open or closed while closed, otherwise whether it is open
    at the end. *)
Fixpoint alternates (opens closes : Call -> bool) (open : bool)
    (l : list Call) : option bool :=
  match l with
  | [] => Some open
  | c :: l' =>
      if opens c then
        if open then None else alternates opens closes true l'
      else if closes c then
        if open then alternates opens closes false l' else None
      else alternates opens closes open l'
  end.

Definition live (c : Comp) : bool :=
  match session c with Some _ => true | None => false end.

(** Engines, runners and renderers are started and released in turn, and
    one of each is running exactly while a session is held. *)
Record Balanced (c : Comp) : Prop := {
  bal_engine : alternates isEngineCreate isEngineClear false (log c) = Some (live c);
  bal_runner : alternates isRunnerRun isRunnerStop false (log c) = Some (live c);
  bal_render : alternates isRenderRun isRenderStop false (log c) = Some (live c)
}.

(** A property of instances that every stage of a commit and every setter
    keeps. *)
Record StageClosed (P : Comp -> Prop) : Prop := {
  sc_unmounted : forall h lay rnd, P (unmounted h lay rnd);
  sc_hooks : forall h c, P c -> P (withHooks h c);
  sc_host : forall h c, P c -> P (withHost h c);
  sc_layout : forall l c, P c -> P (withLayout l c);
  sc_text : forall pending c, P c -> P (fst (textEffect pending c));
  sc_observer :
    forall o calls c,
      forallb isObserverCall calls = true -> P c -> P (withObserver o calls c);
  sc_teardown : forall c, Sound c -> P c -> P (teardown true c);
  sc_physics :
    forall c, Sound c -> session c = None -> P c -> P (physicsEffect c)
}.

Definition isBodiesRectangle (c : Call) : bool :=
  match c with Bodies_rectangle _ _ _ _ _ => true | _ => false end.

(** * Properties *)

(** ** Splitting and joining *)

Lemma splitBy_nonempty (sep : ascii -> bool) (s : string) :
  splitBy sep s <> [].
Proof.
  destruct s as [|c s]; simpl; [discriminate|].
  destruct (sep c); [discriminate|].
  destruct (splitBy sep s); discriminate.
Qed.

Lemma splitBy_length (sep : ascii -> bool) (s : string) :
  length (splitBy sep s) = S (countChars sep s).
Proof.
  induction s as [|c s IH]; simpl; [reflexivity|].
  destruct (sep c); simpl.
  - now rewrite IH.
  - destruct (splitBy sep s) eqn:E; simpl in *; [discriminate|exact IH].
Qed.

Lemma splitBy_pieces (sep : ascii -> bool) (s : string) :
  Forall (fun w => countChars sep w = 0) (splitBy sep s).
Proof.
  induction s as [|c s IH]; simpl.
  - constructor; [reflexivity|constructor].
  - destruct (sep c) eqn:Ec.
    + constructor; [reflexivity|exact IH].
    + destruct (splitBy sep s) as [|w ws]; simpl.
      * constructor; [simpl; now rewrite Ec|constructor].
      * inversion IH; subst. constructor; [simpl; now rewrite Ec|assumption].
Qed.

Lemma isSpace_true (c : ascii) : isSpace c = true -> c = " "%char.
Proof. unfold isSpace. now intros H%Ascii.eqb_eq. Qed.

Lemma concat_cons_cons (sep w : string) (ws : list string) :
  ws <> [] -> String.concat sep (w :: ws) = w ++ sep ++ String.concat sep ws.
Proof. destruct ws; [congruence|reflexivity]. Qed.

Lemma join_split (s : string) : join (split s) = s.
Proof.
  unfold join, split.
  induction s as [|c s IH]; [reflexivity|].
  simpl splitBy. destruct (isSpace c) eqn:Ec.
  - apply isSpace_true in Ec; subst c.
    rewrite concat_cons_cons by apply splitBy_nonempty.
    now rewrite IH.
  - pose proof (splitBy_nonempty isSpace s) as Hne.
    destruct (splitBy isSpace s) as [|w ws]; [congruence|].
    destruct ws as [|w' ws].
    + simpl in *. now rewrite IH.
    + change (String.concat " " (String c w :: w' :: ws))
        with (String c (w ++ " " ++ String.concat " " (w' :: ws))).
      f_equal. exact IH.
Qed.

Lemma splitBy_ext (p q : ascii -> bool) (s : string) :
  allChars (fun c => Bool.eqb (p c) (q c)) s = true ->
  splitBy p s = splitBy q s.
Proof.
  induction s as [|c s IH]; simpl; [reflexivity|].
  intros [Hc Hs]%andb_true_iff. apply eqb_prop in Hc.
  rewrite Hc, (IH Hs). reflexivity.
Qed.

Lemma filter_all {A} (f : A -> bool) (l : list A) :
  forallb f l = true -> filter f l = l.
Proof.
  induction l as [|a l IH]; simpl; [reflexivity|].
  intros [Ha Hl]%andb_true_iff. now rewrite Ha, IH.
Qed.

(** On a text whose only whitespace is the space character and whose
    pieces are all non-empty, the component's pieces are the
    whitespace-delimited tokens. *)
Lemma split_whitespace_tokens (s : string) :
  allChars (fun c => Bool.eqb (isWhitespace c) (isSpace c)) s = true ->
  forallb (fun w => negb (isEmpty w)) (split s) = true ->
  whitespace_tokens s = split s.
Proof.
  intros Hws Hne. unfold whitespace_tokens, split in *.
  rewrite (splitBy_ext _ _ _ Hws). now apply filter_all.
Qed.

(** ** Emphasis *)

Lemma isHighlighted_iff (lower : string -> string) (hws : list string) (word : string) :
  isHighlighted lower hws word = true <->
  exists hw, In hw hws /\ lower word = lower hw.
Proof.
  unfold isHighlighted. rewrite existsb_exists.
  split; intros (hw & Hin & H); exists hw; split; trivial;
    now apply String.eqb_eq.
Qed.

Lemma classTokens_word (rest : string) :
  classTokens ("word " ++ rest) = "word" :: classTokens rest.
Proof.
  unfold classTokens. cbn [append splitBy].
  reflexivity.
Qed.

Lemma hasClass_wordSpan lower hws hc w :
  hasClass "word" (wordSpan lower hws hc w) = true.
Proof.
  unfold hasClass, wordSpan, wordClass; cbn [className].
  now rewrite classTokens_word.
Qed.

Lemma querySelectorAll_word_map lower hws hc (ws : list string) :
  querySelectorAll_word (map (wordSpan lower hws hc) ws) =
  map (wordSpan lower hws hc) ws.
Proof.
  unfold querySelectorAll_word. apply filter_all.
  rewrite forallb_forall. intros sp (w & <- & _)%in_map_iff.
  apply hasClass_wordSpan.
Qed.

(** ** Session construction *)

Lemma makeWordBodies_length lay rnd k i spans :
  length (makeWordBodies lay rnd k i spans) = length spans.
Proof.
  revert k i. induction spans as [|sp spans IH]; intros k i; simpl;
    [reflexivity|now rewrite IH].
Qed.

(** The j-th word body is measured on the j-th span and uses draws
    [k + 2j] and [k + 2j + 1]. *)
Lemma makeWordBodies_nth lay rnd spans :
  forall k i j wb,
    nth_error (makeWordBodies lay rnd k i spans) j = Some wb ->
    wb = ((i + j)%nat,
          wordBody (containerRect lay) (spanRect lay (i + j))
                   (rnd (k + 2 * j)%nat) (rnd (S (k + 2 * j)))).
Proof.
  induction spans as [|sp spans IH]; intros k i j wb H.
  - destruct j; discriminate.
  - destruct j as [|j]; simpl in H.
    + injection H as <-. now rewrite !Nat.add_0_r.
    + apply IH in H. subst wb.
      replace (S i + j)%nat with (i + S j)%nat by lia.
      replace (S (S k) + 2 * j)%nat with (k + 2 * S j)%nat by lia.
      reflexivity.
Qed.

Lemma makeWordBodies_dynamic lay rnd spans :
  forall k i, Forall (fun wb => isStatic (snd wb) = false)
                     (makeWordBodies lay rnd k i spans).
Proof.
  induction spans as [|sp spans IH]; intros k i; simpl; constructor;
    [reflexivity|apply IH].
Qed.

Lemma bodiesOf_app (u v : list WorldItem) :
  bodiesOf (u ++ v) = (bodiesOf u ++ bodiesOf v)%list.
Proof. apply flat_map_app. Qed.

Lemma bodiesOf_map_body {A} (f : A -> Body) (l : list A) :
  bodiesOf (map (fun a => W_body (f a)) l) = map f l.
Proof.
  induction l as [|a l IH]; [reflexivity|].
  cbn [map]. unfold bodiesOf in *. cbn [flat_map app]. now rewrite IH.
Qed.

Lemma bodiesOf_buildSession (c : Comp) :
  bodiesOf (world (buildSession c)) =
  (boundaries (r_width (containerRect (layout c)))
              (r_height (containerRect (layout c))) ++
   map snd (wordBodies (buildSession c)))%list.
Proof.
  unfold buildSession; cbn [world wordBodies].
  rewrite bodiesOf_app.
  change (bodiesOf (W_mouseConstraint ?k :: ?l)) with (bodiesOf l).
  now rewrite (bodiesOf_map_body snd).
Qed.

Lemma filter_none {A} (f : A -> bool) (l : list A) :
  Forall (fun a => f a = false) l -> filter f l = [].
Proof.
  induction 1 as [|a l Ha _ IH]; simpl; [reflexivity|now rewrite Ha].
Qed.

Lemma static_bodies_buildSession (c : Comp) :
  filter isStatic (bodiesOf (world (buildSession c))) =
  boundaries (r_width (containerRect (layout c)))
             (r_height (containerRect (layout c))).
Proof.
  rewrite bodiesOf_buildSession, filter_app.
  rewrite (filter_none isStatic (map snd _)).
  - now rewrite app_nil_r.
  - rewrite Forall_map. apply makeWordBodies_dynamic.
Qed.

(** ** Guards of the physics effect *)

Lemma physicsEffect_guard (c : Comp) :
  effectStarted (hooks c) && isInitialized (hooks c) = false ->
  physicsEffect c = c.
Proof.
  unfold physicsEffect.
  destruct (effectStarted (hooks c)), (isInitialized (hooks c));
    simpl; congruence.
Qed.

Lemma physicsEffect_degenerate (c : Comp) :
  degenerate (containerRect (layout c)) = true ->
  physicsEffect c = c.
Proof.
  unfold physicsEffect. intros ->.
  now destruct (negb _ || negb _).
Qed.

Lemma physicsEffect_builds (c : Comp) :
  effectStarted (hooks c) = true ->
  isInitialized (hooks c) = true ->
  degenerate (containerRect (layout c)) = false ->
  session (physicsEffect c) = Some (buildSession c) /\
  log (physicsEffect c) = (log c ++ buildCalls c (buildSession c))%list /\
  canvasDom (physicsEffect c) = (canvasDom c ++ [renderCanvas (buildSession c)])%list.
Proof.
  unfold physicsEffect. intros -> -> ->. simpl. auto.
Qed.

Lemma degenerate_iff (r : Rect) :
  degenerate r = true <-> (r_width r <= 0)%Q \/ (r_height r <= 0)%Q.
Proof.
  unfold degenerate. rewrite orb_true_iff, !Qle_bool_iff. reflexivity.
Qed.

(** ** The call log *)

Lemma markupFirst_app (l l' : list Call) :
  markupFirst l = true ->
  hasMarkup l = true \/ noCreation l' = true ->
  markupFirst (l ++ l') = true.
Proof.
  induction l as [|c l IH]; simpl; intros Hl H.
  - destruct H as [H|H]; [discriminate|].
    induction l' as [|c' l' IH']; simpl in *; [reflexivity|].
    apply andb_true_iff in H as [H1 H2].
    destruct (isMarkup c'); [reflexivity|].
    now rewrite H1, IH'.
  - destruct (isMarkup c); [reflexivity|]. simpl in H.
    apply andb_true_iff in Hl as [H1 H2].
    rewrite H1. simpl. now apply IH.
Qed.

Lemma markupFirst_sound (l : list Call) :
  markupFirst l = true ->
  forall pre call post,
    l = (pre ++ call :: post)%list ->
    isResourceCreation call = true ->
    exists html, In (SetInnerHTML html) pre.
Proof.
  induction l as [|c l IH]; intros H pre call post E Hc.
  - destruct pre; discriminate.
  - destruct pre as [|c0 pre]; simpl in E; injection E as -> ->.
    + simpl in H. destruct (isMarkup call) eqn:Hm.
      * destruct call; discriminate.
      * rewrite Hc in H. discriminate.
    + simpl in H. destruct c0; simpl in H;
        try (exists html; now left);
        try discriminate;
        (destruct (IH H pre call post eq_refl Hc) as [html' Hin];
         exists html'; now right).
Qed.

Lemma hasMarkup_app (l l' : list Call) :
  hasMarkup (l ++ l') = hasMarkup l || hasMarkup l'.
Proof. apply existsb_app. Qed.

Lemma noCreation_filter (l : list Call) :
  noCreation l = true -> filter isResourceCreation l = [].
Proof.
  unfold noCreation. induction l as [|c l IH]; simpl; [reflexivity|].
  intros [H1 H2]%andb_true_iff. apply negb_true_iff in H1.
  now rewrite H1, IH.
Qed.

(** ** Invariants of an instance *)

Lemma Sound_textEffect pending c :
  Sound c -> Sound (fst (textEffect pending c)).
Proof.
  intros [H1 H2 H3 H4 H5 H6 H7]. split; cbn; trivial.
  - intros _. rewrite hasMarkup_app. simpl. apply orb_true_r.
  - apply markupFirst_app; auto.
Qed.

Lemma Sound_withObserver o calls c :
  noCreation calls = true ->
  Sound c -> Sound (withObserver o calls c).
Proof.
  intros Hc [H1 H2 H3 H4 H5 H6 H7]. split; cbn; trivial.
  - intros Hi. rewrite hasMarkup_app, (H5 Hi). reflexivity.
  - apply markupFirst_app; auto.
Qed.

Lemma Sound_triggerCleanup c : Sound c -> Sound (triggerCleanup c).
Proof.
  unfold triggerCleanup. destruct (observer c); trivial.
  now apply Sound_withObserver.
Qed.

Lemma Sound_triggerEffect pending c :
  Sound c -> Sound (fst (triggerEffect pending c)).
Proof.
  unfold triggerEffect. intros H.
  destruct (negb _); trivial.
  destruct (String.eqb _ "auto"); trivial.
  destruct (String.eqb _ "scroll"); trivial.
  now apply Sound_withObserver.
Qed.

Lemma existsb_eqb_single (k : nat) : existsb (Nat.eqb k) [k] = true.
Proof. simpl. now rewrite Nat.eqb_refl. Qed.

Lemma Sound_teardown c :
  Sound c -> Sound (teardown true c) /\ session (teardown true c) = None.
Proof.
  intros H. unfold teardown.
  destruct (session c) as [s|] eqn:Es; [|auto].
  destruct H as [H1 H2 H3 H4 H5 H6 H7]. rewrite Es in *.
  split; [|reflexivity].
  split; cbn; trivial.
  - rewrite H1, H2, existsb_eqb_single. reflexivity.
  - rewrite H2. simpl. now rewrite Nat.eqb_refl.
  - congruence.
  - discriminate.
  - intros Hi. rewrite hasMarkup_app, (H5 Hi). reflexivity.
  - apply markupFirst_app; auto. right.
    rewrite H2, existsb_eqb_single. reflexivity.
Qed.

Lemma noCreation_false_irrelevant (l l' : list Call) :
  hasMarkup l = true -> markupFirst l = true -> markupFirst (l ++ l') = true.
Proof. intros; apply markupFirst_app; auto. Qed.

Lemma Sound_physicsEffect c :
  Sound c -> session c = None -> Sound (physicsEffect c).
Proof.
  intros H Hs. unfold physicsEffect.
  destruct (effectStarted (hooks c)) eqn:Ees; [|exact H].
  destruct (isInitialized (hooks c)) eqn:Eii; [|exact H].
  cbn [negb orb].
  destruct (degenerate _) eqn:Ed; [exact H|].
  destruct H as [H1 H2 H3 H4 H5 H6 H7]. rewrite Hs in *.
  split; cbn [thrown canvasDom session hooks log]; trivial.
  - now rewrite H2.
  - now rewrite Ees, Eii.
  - intros s [= <-]. now exists c.
  - intros _. rewrite hasMarkup_app, H5; auto.
  - apply noCreation_false_irrelevant; auto.
Qed.

(** ** Commits *)

Lemma sameFrame_refl c : sameFrame c c.
Proof. now split. Qed.

Lemma sameFrame_trans c1 c2 c3 :
  sameFrame c1 c2 -> sameFrame c2 c3 -> sameFrame c1 c3.
Proof. intros [] []; split; congruence. Qed.

Lemma sameFrame_triggerCleanup c : sameFrame c (triggerCleanup c).
Proof. unfold triggerCleanup. destruct (observer c); now split. Qed.

Lemma sameFrame_triggerEffect pending c :
  sameFrame c (fst (triggerEffect pending c)).
Proof.
  unfold triggerEffect.
  destruct (negb _); [now split|].
  destruct (String.eqb _ "auto"); [now split|].
  destruct (String.eqb _ "scroll"); now split.
Qed.

Lemma sameFrame_teardown b c : sameFrame c (teardown b c).
Proof. unfold teardown. destruct (session c); now split. Qed.

Lemma sameFrame_physicsEffect c : sameFrame c (physicsEffect c).
Proof.
  unfold physicsEffect.
  destruct (negb _ || negb _); [now split|].
  destruct (degenerate _); now split.
Qed.

Lemma sameFrame_afterText prev same c : sameFrame c (afterText prev same c).
Proof. unfold afterText. destruct (textDepsChanged _ _ _); now split. Qed.

Lemma triggerDepsChanged_frame prev c c' :
  sameFrame c c' -> triggerDepsChanged prev c' = triggerDepsChanged prev c.
Proof.
  intros [Hp Hh _ _]. unfold triggerDepsChanged. now rewrite Hp, Hh.
Qed.

Lemma physicsDepsChanged_frame prev c c' :
  sameFrame c c' -> physicsDepsChanged prev c' = physicsDepsChanged prev c.
Proof.
  intros [Hp Hh _ _]. unfold physicsDepsChanged. now rewrite Hp, Hh.
Qed.

Lemma sameFrame_afterTrigger prev same c : sameFrame c (afterTrigger prev same c).
Proof.
  unfold afterTrigger.
  pose proof (sameFrame_afterText prev same c) as H1.
  destruct (triggerDepsChanged _ _); trivial.
  eapply sameFrame_trans; [exact H1|].
  eapply sameFrame_trans; [apply sameFrame_triggerCleanup|].
  apply sameFrame_triggerEffect.
Qed.

Lemma hooks_eta (h : Hooks) :
  {| effectStarted := effectStarted h; isInitialized := isInitialized h |} = h.
Proof. now destruct h. Qed.

Lemma commit_stages prev same c :
  commit prev same c =
  (let c2 := afterTrigger prev same c in
   if physicsDepsChanged prev c then physicsEffect (teardown true c2) else c2,
   pendingOf prev same c).
Proof.
  unfold commit, afterTrigger, afterText, pendingOf.
  destruct (textDepsChanged prev same c) eqn:Et;
    cbn [textEffect fst];
    match goal with
    | |- context [triggerDepsChanged prev ?c1] =>
        assert (F1 : sameFrame c c1) by (now split);
        try rewrite (triggerDepsChanged_frame prev c c1 F1)
    end;
    (destruct (triggerDepsChanged prev c) eqn:Eg;
     [ match goal with
       | |- context [triggerEffect ?pd (triggerCleanup ?c1)] =>
           pose proof (sameFrame_trans _ _ _ F1 (sameFrame_triggerCleanup c1)) as F2;
           pose proof (sameFrame_trans _ _ _ F2
                         (sameFrame_triggerEffect pd (triggerCleanup c1))) as F3;
           unfold triggerEffect in *;
           try rewrite (fr_hooks _ _ F2) in *; try rewrite (fr_props _ _ F2) in *;
           destruct (isInitialized (hooks c)) eqn:Ei; cbn [negb] in *;
           [ destruct (String.eqb (trigger (props c)) "auto");
             [ | destruct (String.eqb (trigger (props c)) "scroll") ] | ];
           cbn [fst] in *;
           try rewrite (physicsDepsChanged_frame prev c _ F3)
       end
     | try rewrite (physicsDepsChanged_frame prev c _ F1) ]);
    cbn [effectStarted isInitialized];
    rewrite ?andb_true_r, ?andb_false_r, ?orb_true_r, ?orb_false_r, ?hooks_eta;
    try reflexivity;
    destruct (hooks c) as [es ii]; cbn in Ei; subst ii; reflexivity.
Qed.

Lemma commit_eq prev same c :
  commit prev same c = (committed prev same c, pendingOf prev same c).
Proof. apply commit_stages. Qed.

Lemma sameFrame_committed prev same c : sameFrame c (committed prev same c).
Proof.
  unfold committed.
  pose proof (sameFrame_afterTrigger prev same c) as H.
  destruct (physicsDepsChanged prev c); trivial.
  eapply sameFrame_trans; [exact H|].
  eapply sameFrame_trans; [apply sameFrame_teardown|apply sameFrame_physicsEffect].
Qed.

Lemma Sound_afterText prev same c : Sound c -> Sound (afterText prev same c).
Proof.
  unfold afterText. destruct (textDepsChanged _ _ _); trivial.
  apply Sound_textEffect.
Qed.

Lemma Sound_afterTrigger prev same c : Sound c -> Sound (afterTrigger prev same c).
Proof.
  intros H%(Sound_afterText prev same). unfold afterTrigger.
  destruct (triggerDepsChanged _ _); trivial.
  now apply Sound_triggerEffect, Sound_triggerCleanup.
Qed.

Lemma Sound_committed prev same c : Sound c -> Sound (committed prev same c).
Proof.
  intros H%(Sound_afterTrigger prev same). unfold committed.
  destruct (physicsDepsChanged prev c); trivial.
  apply Sound_teardown in H as [H1 H2]. now apply Sound_physicsEffect.
Qed.

(** The text target after each stage. *)
Lemma textDom_triggerCleanup c : textDom (triggerCleanup c) = textDom c.
Proof. unfold triggerCleanup. now destruct (observer c). Qed.

Lemma textDom_triggerEffect pending c :
  textDom (fst (triggerEffect pending c)) = textDom c.
Proof.
  unfold triggerEffect.
  destruct (negb _); [reflexivity|].
  destruct (String.eqb _ "auto"); [reflexivity|].
  now destruct (String.eqb _ "scroll").
Qed.

Lemma textDom_teardown b c : textDom (teardown b c) = textDom c.
Proof. unfold teardown. now destruct (session c). Qed.

Lemma textDom_physicsEffect c : textDom (physicsEffect c) = textDom c.
Proof.
  unfold physicsEffect.
  destruct (negb _ || negb _); [reflexivity|].
  now destruct (degenerate _).
Qed.

Lemma textDom_afterTrigger prev same c :
  textDom (afterTrigger prev same c) = textDom (afterText prev same c).
Proof.
  unfold afterTrigger. destruct (triggerDepsChanged _ _); trivial.
  now rewrite textDom_triggerEffect, textDom_triggerCleanup.
Qed.

Lemma textDom_committed prev same c :
  textDom (committed prev same c) = textDom (afterText prev same c).
Proof.
  unfold committed. destruct (physicsDepsChanged _ _).
  - now rewrite textDom_physicsEffect, textDom_teardown, textDom_afterTrigger.
  - apply textDom_afterTrigger.
Qed.

Lemma domOK_afterText prev same c :
  domOK c \/ textDepsChanged prev same c = true ->
  domOK (afterText prev same c).
Proof.
  unfold afterText. destruct (textDepsChanged _ _ _).
  - intros _. exists (highlightWords (props c)), (highlightClass (props c)).
    reflexivity.
  - intros [H|H]; [exact H|discriminate].
Qed.

Lemma domOK_frame c c' :
  props c' = props c -> textDom c' = textDom c -> domOK c -> domOK c'.
Proof.
  intros Hp Hd (hws & hc & H). exists hws, hc. now rewrite Hp, Hd.
Qed.

Lemma domOK_committed prev same c :
  domOK c \/ textDepsChanged prev same c = true ->
  domOK (committed prev same c).
Proof.
  intros H%domOK_afterText.
  eapply domOK_frame; [| |exact H].
  - rewrite (fr_props _ _ (sameFrame_committed prev same c)).
    now rewrite (fr_props _ _ (sameFrame_afterText prev same c)).
  - apply textDom_committed.
Qed.

Lemma logGrows_refl c : logGrows c c.
Proof. exists []. now rewrite app_nil_r. Qed.

Lemma logGrows_trans c1 c2 c3 :
  logGrows c1 c2 -> logGrows c2 c3 -> logGrows c1 c3.
Proof.
  intros [l1 H1] [l2 H2]. exists (l1 ++ l2)%list.
  now rewrite H2, H1, app_assoc.
Qed.

Lemma logGrows_triggerCleanup c : logGrows c (triggerCleanup c).
Proof.
  unfold triggerCleanup. destruct (observer c);
    [now eexists|apply logGrows_refl].
Qed.

Lemma logGrows_triggerEffect pending c :
  logGrows c (fst (triggerEffect pending c)).
Proof.
  unfold triggerEffect.
  destruct (negb _); [apply logGrows_refl|].
  destruct (String.eqb _ "auto"); [apply logGrows_refl|].
  destruct (String.eqb _ "scroll"); [now eexists|apply logGrows_refl].
Qed.

Lemma logGrows_teardown b c : logGrows c (teardown b c).
Proof.
  unfold teardown. destruct (session c); [now eexists|apply logGrows_refl].
Qed.

Lemma logGrows_physicsEffect c : logGrows c (physicsEffect c).
Proof.
  unfold physicsEffect.
  destruct (negb _ || negb _); [apply logGrows_refl|].
  destruct (degenerate _); [apply logGrows_refl|now eexists].
Qed.

Lemma logGrows_afterTrigger prev same c :
  logGrows (afterText prev same c) (afterTrigger prev same c).
Proof.
  unfold afterTrigger. destruct (triggerDepsChanged _ _); [|apply logGrows_refl].
  eapply logGrows_trans;
    [apply logGrows_triggerCleanup|apply logGrows_triggerEffect].
Qed.

Lemma logGrows_committed prev same c :
  logGrows (afterText prev same c) (committed prev same c).
Proof.
  unfold committed. destruct (physicsDepsChanged _ _).
  - eapply logGrows_trans; [apply logGrows_afterTrigger|].
    eapply logGrows_trans;
      [apply logGrows_teardown|apply logGrows_physicsEffect].
  - apply logGrows_afterTrigger.
Qed.

Lemma hasMarkup_grows c c' :
  logGrows c c' -> hasMarkup (log c) = true -> hasMarkup (log c') = true.
Proof. intros [l ->] H. now rewrite hasMarkup_app, H. Qed.

Lemma hasMarkup_afterText prev same c :
  textDepsChanged prev same c = true ->
  hasMarkup (log (afterText prev same c)) = true.
Proof.
  unfold afterText. intros ->. cbn. rewrite hasMarkup_app. apply orb_true_r.
Qed.

(** Setting the state a commit asked for keeps the instance sound. *)
Lemma Sound_pending prev same c :
  Sound c ->
  Sound (withHooks (pendingOf prev same c) (committed prev same c)).
Proof.
  intros H. pose proof (Sound_committed prev same c H) as H'.
  pose proof (sameFrame_committed prev same c) as F.
  destruct H' as [H1 H2 H3 H4 H5 H6 H7].
  rewrite (fr_hooks _ _ F) in *.
  split; cbn [withHooks thrown canvasDom session hooks log pendingOf
              effectStarted isInitialized]; trivial.
  - intros Hs. destruct (H3 Hs) as [-> ->]. now split.
  - destruct (isInitialized (hooks c)); [auto|]. cbn [orb]. intros Ht.
    eapply hasMarkup_grows; [apply logGrows_committed|].
    now apply hasMarkup_afterText.
  - destruct (effectStarted (hooks c)) eqn:Ee.
    + now rewrite H7.
    + cbn [orb]. intros [[_ ->]%andb_true_iff _]%andb_true_iff. reflexivity.
Qed.

(** ** The render loop *)

Lemma hooks_le_refl a : hooks_le a a.
Proof. now split. Qed.

Lemma hooks_le_trans a b c : hooks_le a b -> hooks_le b c -> hooks_le a c.
Proof. intros [] []; split; auto. Qed.

Lemma hooks_le_pending prev same c : hooks_le (hooks c) (pendingOf prev same c).
Proof. split; cbn; now intros ->. Qed.

Lemma hooks_eqb_eq (a b : Hooks) : hooks_eqb a b = true <-> a = b.
Proof.
  destruct a as [a1 a2], b as [b1 b2]. unfold hooks_eqb; cbn.
  rewrite andb_true_iff, !eqb_true_iff. split; [intros []|intros [=]];
    subst; auto.
Qed.

Lemma rerender_unfold fuel prev same c :
  rerender fuel prev same c =
  if hooks_eqb (pendingOf prev same c) (hooks c) then committed prev same c
  else match fuel with
       | O => committed prev same c
       | S fuel' =>
           rerender fuel' (Some (props c, hooks c)) (wordsStable c)
             (withHooks (pendingOf prev same c) (committed prev same c))
       end.
Proof. destruct fuel; cbn [rerender]; now rewrite commit_eq. Qed.

Lemma rerender_sound fuel :
  forall prev same c,
    Sound c ->
    domOK c \/ textDepsChanged prev same c = true ->
    let c' := rerender fuel prev same c in
    Sound c' /\ domOK c' /\ props c' = props c /\ layout c' = layout c /\
    random c' = random c /\ hooks_le (hooks c) (hooks c').
Proof.
  induction fuel as [|fuel IH]; intros prev same c Hs Hd; cbn zeta;
    rewrite rerender_unfold;
    pose proof (sameFrame_committed prev same c) as [Fp Fh Fl Fr];
    pose proof (Sound_committed prev same c Hs) as Hs';
    pose proof (domOK_committed prev same c Hd) as Hd'.
  - assert (G : hooks_le (hooks c) (hooks (committed prev same c)))
      by (rewrite Fh; apply hooks_le_refl).
    destruct (hooks_eqb _ _); auto 10.
  - destruct (hooks_eqb _ _).
    + assert (G : hooks_le (hooks c) (hooks (committed prev same c)))
        by (rewrite Fh; apply hooks_le_refl).
      auto 10.
    + specialize (IH (Some (props c, hooks c)) (wordsStable c)
                     (withHooks (pendingOf prev same c) (committed prev same c))
                     (Sound_pending prev same c Hs)).
      destruct IH as (I1 & I2 & I3 & I4 & I5 & I6).
      * left. destruct Hd' as (hws & hc & E). now exists hws, hc.
      * cbn [withHooks props layout random hooks] in *.
        refine (conj I1 (conj I2 (conj _ (conj _ (conj _ _))))); try congruence.
        eapply hooks_le_trans; [apply (hooks_le_pending prev same)|exact I6].
Qed.

Lemma pendingOf_falseBits prev same c :
  hooks_eqb (pendingOf prev same c) (hooks c) = false ->
  falseBits (pendingOf prev same c) < falseBits (hooks c).
Proof.
  unfold pendingOf, hooks_eqb, falseBits; cbn.
  destruct (effectStarted (hooks c)), (isInitialized (hooks c)); cbn;
    repeat match goal with
           | |- context [if ?b then _ else _] => destruct b; cbn
           end; intros; try discriminate; lia.
Qed.

(** Two further renders are always enough: more fuel changes nothing. *)
Lemma rerender_enough fuel :
  forall n prev same c,
    falseBits (hooks c) <= fuel ->
    rerender (fuel + n) prev same c = rerender fuel prev same c.
Proof.
  induction fuel as [|fuel IH]; intros n prev same c Hb.
  - rewrite (rerender_unfold 0), (rerender_unfold (0 + n)).
    destruct (hooks_eqb _ _) eqn:E; trivial.
    apply pendingOf_falseBits in E. lia.
  - rewrite (rerender_unfold (S fuel)), (rerender_unfold (S fuel + n)).
    destruct (hooks_eqb _ _) eqn:E; trivial.
    cbn [Nat.add]. apply IH. cbn [withHooks hooks].
    apply pendingOf_falseBits in E. lia.
Qed.

Lemma rerender_fuel n prev same c :
  rerender (2 + n) prev same c = renderLoop prev same c.
Proof.
  apply rerender_enough. unfold falseBits.
  destruct (effectStarted _), (isInitialized _); cbn; lia.
Qed.

Lemma rerender_hooks_le fuel :
  forall prev same c, hooks_le (hooks c) (hooks (rerender fuel prev same c)).
Proof.
  induction fuel as [|fuel IH]; intros prev same c; rewrite rerender_unfold;
    pose proof (fr_hooks _ _ (sameFrame_committed prev same c)) as Fh.
  - destruct (hooks_eqb _ _); rewrite Fh; apply hooks_le_refl.
  - destruct (hooks_eqb _ _); [rewrite Fh; apply hooks_le_refl|].
    eapply hooks_le_trans; [apply (hooks_le_pending prev same)|].
    apply (IH _ _ (withHooks _ _)).
Qed.

(** The render loop that follows a run of the text effect ends with the
    initialization flag set. *)
Lemma rerender_initialized fuel prev same c :
  textDepsChanged prev same c = true \/ isInitialized (hooks c) = true ->
  isInitialized (hooks (rerender (S fuel) prev same c)) = true.
Proof.
  intros H. rewrite rerender_unfold.
  assert (Hp : isInitialized (pendingOf prev same c) = true).
  { cbn. destruct H as [->| ->]; [apply orb_true_r|reflexivity]. }
  destruct (hooks_eqb _ _) eqn:E.
  - apply hooks_eqb_eq in E.
    rewrite (fr_hooks _ _ (sameFrame_committed prev same c)), <- E. exact Hp.
  - apply (rerender_hooks_le fuel _ _ (withHooks _ _)). exact Hp.
Qed.

(** ** Reachable instances *)

Lemma mount_eq h lay rnd : mount h lay rnd = renderLoop None true (unmounted h lay rnd).
Proof. reflexivity. Qed.

Lemma Sound_unmounted h lay rnd : Sound (unmounted h lay rnd).
Proof. split; cbn; trivial; try discriminate; congruence. Qed.

Lemma Inv_mount h lay rnd : Inv (mount h lay rnd).
Proof.
  rewrite mount_eq. unfold renderLoop.
  pose proof (rerender_sound 2 None true _ (Sound_unmounted h lay rnd)) as R.
  cbn zeta in R. destruct R as (R1 & R2 & _); [now right|].
  split; trivial.
  apply rerender_initialized. now left.
Qed.

Lemma Sound_withHooks h c :
  Sound c ->
  isInitialized (hooks c) = true -> isInitialized h = true ->
  hooks_le (hooks c) h ->
  Sound (withHooks h c).
Proof.
  intros [H1 H2 H3 H4 H5 H6 H7] Hi Hh [L1 L2].
  split; cbn; trivial; auto.
  intros Hs. destruct (H3 Hs). auto.
Qed.

Lemma Sound_withHost h c : Sound c -> Sound (withHost h c).
Proof. intros []; now split. Qed.

Lemma Sound_withLayout l c : Sound c -> Sound (withLayout l c).
Proof. intros []; now split. Qed.

Lemma Inv_renderLoop prev same c :
  Sound c ->
  domOK c \/ textDepsChanged prev same c = true ->
  isInitialized (hooks c) = true ->
  Inv (renderLoop prev same c).
Proof.
  intros Hs Hd Hi. unfold renderLoop.
  pose proof (rerender_sound 2 prev same c Hs Hd) as R. cbn zeta in R.
  destruct R as (R1 & R2 & _ & _ & _ & [_ R3]). split; auto.
Qed.

Lemma Inv_setState h c :
  Inv c -> isInitialized h = true -> hooks_le (hooks c) h ->
  Inv (setState h c).
Proof.
  intros [Hs Hd Hi] Hh Hl. unfold setState.
  destruct (hooks_eqb h (hooks c)); [now split|].
  apply Inv_renderLoop; trivial.
  - now apply Sound_withHooks.
  - left. destruct Hd as (hws & hc & E). now exists hws, hc.
Qed.

Lemma hooks_le_start (h : Hooks) :
  hooks_le h {| effectStarted := true; isInitialized := isInitialized h |}.
Proof. now split. Qed.

Lemma Inv_handleTrigger c : Inv c -> Inv (handleTrigger c).
Proof.
  intros H. unfold handleTrigger.
  destruct (_ && _); trivial.
  apply Inv_setState; [exact H|exact (inv_init _ H)|apply hooks_le_start].
Qed.

Lemma Inv_step c e : Inv c -> Inv (step c e).
Proof.
  intros H. destruct e as [h same| | |entry more|lay]; cbn [step].
  - destruct H as [Hs Hd Hi]. apply Inv_renderLoop; trivial.
    + now apply Sound_withHost.
    + cbn [textDepsChanged withHost props].
      destruct (String.eqb (text (props c)) (text (FallingText_props h))) eqn:E;
        [|now right].
      left. apply String.eqb_eq in E. destruct Hd as (hws & hc & D).
      exists hws, hc. cbn [withHost textDom props]. now rewrite <- E.
  - destruct (String.eqb _ _); [now apply Inv_handleTrigger|exact H].
  - destruct (String.eqb _ _); [now apply Inv_handleTrigger|exact H].
  - destruct (observing c); [|exact H]. unfold observerCallback.
    destruct (isIntersecting entry); [|exact H].
    apply Inv_setState; [|exact (inv_init _ H)|apply hooks_le_start].
    destruct H as [Hs Hd Hi]. split.
    + now apply Sound_withObserver.
    + destruct Hd as (hws & hc & D). now exists hws, hc.
    + exact Hi.
  - destruct H as [Hs Hd Hi]. split.
    + now apply Sound_withLayout.
    + destruct Hd as (hws & hc & D). now exists hws, hc.
    + exact Hi.
Qed.

Lemma reachable_Inv c : reachable c -> Inv c.
Proof.
  induction 1 as [h lay rnd|c e _ IH]; [apply Inv_mount|now apply Inv_step].
Qed.

(** ** Activation builds one body per piece *)

Lemma domOK_wordSpans c :
  domOK c ->
  querySelectorAll_word (textDom c) = textDom c /\
  map textContent (textDom c) = split (text (props c)).
Proof.
  intros (hws & hc & E). rewrite E. split.
  - apply querySelectorAll_word_map.
  - rewrite map_map. cbn [wordSpan textContent]. apply map_id.
Qed.

Lemma buildSession_tokens c :
  domOK c ->
  length (wordBodies (buildSession c)) =
  S (countChars isSpace (text (props c))).
Proof.
  intros H. cbn [buildSession wordBodies]. rewrite makeWordBodies_length.
  destruct (domOK_wordSpans c H) as [-> E].
  rewrite <- (length_map textContent), E. apply splitBy_length.
Qed.

Lemma physicsDepsChanged_started p h c :
  effectStarted h = false -> effectStarted (hooks c) = true ->
  physicsDepsChanged (Some (p, h)) c = true.
Proof. unfold physicsDepsChanged. now intros -> ->. Qed.

Lemma pendingOf_full prev same c :
  effectStarted (hooks c) = true -> isInitialized (hooks c) = true ->
  pendingOf prev same c = hooks c.
Proof.
  unfold pendingOf. destruct (hooks c) as [es ii]; cbn. now intros -> ->.
Qed.

Lemma hooks_eqb_refl h : hooks_eqb h h = true.
Proof. now apply hooks_eqb_eq. Qed.

(** The commit that first sees [effectStarted] set builds the session. *)
Lemma committed_activation p h same c :
  Sound c ->
  domOK c \/ textDepsChanged (Some (p, h)) same c = true ->
  degenerate (containerRect (layout c)) = false ->
  effectStarted h = false -> effectStarted (hooks c) = true ->
  let c2 := teardown true (afterTrigger (Some (p, h)) same c) in
  committed (Some (p, h)) same c = physicsEffect c2 /\
  session (physicsEffect c2) = Some (buildSession c2) /\
  length (wordBodies (buildSession c2)) =
  S (countChars isSpace (text (props c))).
Proof.
  intros Hs Hd Hg Hh He c2.
  pose proof (sameFrame_afterTrigger (Some (p, h)) same c) as F1.
  pose proof (sameFrame_teardown true (afterTrigger (Some (p, h)) same c)) as F2.
  pose proof (sameFrame_trans _ _ _ F1 F2) as [Fp Fh Fl Fr]. fold c2 in Fp, Fh, Fl, Fr.
  split; [|split].
  - unfold committed. now rewrite (physicsDepsChanged_started p h c Hh He).
  - apply physicsEffect_builds.
    + now rewrite Fh.
    + rewrite Fh. now apply (snd_started _ Hs).
    + now rewrite Fl.
  - rewrite <- Fp. apply buildSession_tokens.
    apply (domOK_frame (afterText (Some (p, h)) same c)).
    + rewrite Fp. now rewrite (fr_props _ _ (sameFrame_afterText _ same c)).
    + unfold c2. now rewrite textDom_teardown, textDom_afterTrigger.
    + now apply domOK_afterText.
Qed.

Lemma rerender_activation fuel :
  forall prev same c,
    Sound c ->
    domOK c \/ textDepsChanged prev same c = true ->
    degenerate (containerRect (layout c)) = false ->
    (effectStarted (hooks c) = true ->
     exists p h, prev = Some (p, h) /\ effectStarted h = false) ->
    effectStarted (hooks (rerender fuel prev same c)) = true ->
    exists s, session (rerender fuel prev same c) = Some s /\
              length (wordBodies s) = S (countChars isSpace (text (props c))).
Proof.
  induction fuel as [|fuel IH]; intros prev same c Hs Hd Hg Hprev;
    rewrite rerender_unfold;
    pose proof (sameFrame_committed prev same c) as [Fp Fh Fl Fr];
    (destruct (effectStarted (hooks c)) eqn:Ee;
     [ destruct (Hprev eq_refl) as (p & h & -> & Hh);
       destruct (committed_activation p h same c Hs Hd Hg Hh Ee) as (E1 & E2 & E3);
       rewrite (pendingOf_full _ same c Ee (snd_started _ Hs Ee)), hooks_eqb_refl;
       intros _; rewrite E1; eauto
     | ]).
  - destruct (hooks_eqb _ _); rewrite Fh, Ee; discriminate.
  - destruct (hooks_eqb _ _); [rewrite Fh, Ee; discriminate|].
    intros Hfin.
    destruct (IH (Some (props c, hooks c)) (wordsStable c)
                 (withHooks (pendingOf prev same c) (committed prev same c)))
      as (s & S1 & S2); trivial.
    + now apply Sound_pending.
    + left. destruct (domOK_committed prev same c Hd) as (hws & hc & D).
      now exists hws, hc.
    + cbn [withHooks layout]. now rewrite Fl.
    + intros _. now exists (props c), (hooks c).
    + exists s. split; [exact S1|].
      cbn [withHooks props] in S2. now rewrite S2, Fp.
Qed.

(** ** What the render loop leaves alone *)

Lemma rerender_frame fuel :
  forall prev same c,
    props (rerender fuel prev same c) = props c /\
    layout (rerender fuel prev same c) = layout c.
Proof.
  induction fuel as [|fuel IH]; intros prev same c; rewrite rerender_unfold;
    pose proof (sameFrame_committed prev same c) as [Fp Fh Fl Fr].
  - now destruct (hooks_eqb _ _).
  - destruct (hooks_eqb _ _); [now split|].
    destruct (IH (Some (props c, hooks c)) (wordsStable c)
                 (withHooks (pendingOf prev same c) (committed prev same c)))
      as [I1 I2].
    cbn [withHooks props layout] in *. split; congruence.
Qed.

Lemma observer_teardown b c : observer (teardown b c) = observer c.
Proof. unfold teardown. now destruct (session c). Qed.

Lemma observer_physicsEffect c : observer (physicsEffect c) = observer c.
Proof.
  unfold physicsEffect.
  destruct (negb _ || negb _); [reflexivity|].
  now destruct (degenerate _).
Qed.

Lemma depsUnchanged_state h0 c :
  isInitialized h0 = isInitialized (hooks c) ->
  textDepsChanged (Some (props c, h0)) true c = false /\
  triggerDepsChanged (Some (props c, h0)) c = false.
Proof.
  intros E. unfold textDepsChanged, triggerDepsChanged.
  rewrite !String.eqb_refl, E, eqb_reflx. auto.
Qed.




(** ** Commits under a degenerate layout *)

Lemma quiet_refl c : quiet c c.
Proof. now split. Qed.

Lemma quiet_trans c1 c2 c3 : quiet c1 c2 -> quiet c2 c3 -> quiet c1 c3.
Proof. intros [] []; split; try congruence; auto. Qed.

Lemma quiet_append (c c' : Comp) (l : list Call) :
  log c' = (log c ++ l)%list -> noCreation l = true ->
  session c' = session c \/ session c' = None ->
  layout c' = layout c ->
  quiet c c'.
Proof.
  intros Hl Hn Hs Hy. split; trivial.
  - unfold creations. rewrite Hl, filter_app, (noCreation_filter l Hn).
    apply app_nil_r.
  - destruct Hs as [-> | ->]; auto.
Qed.

Lemma quiet_afterText prev same c : quiet c (afterText prev same c).
Proof.
  unfold afterText. destruct (textDepsChanged _ _ _); [|apply quiet_refl].
  now apply (quiet_append _ _ [SetInnerHTML (newHTML toLowerCase (props c))]); auto.
Qed.

Lemma quiet_triggerCleanup c : quiet c (triggerCleanup c).
Proof.
  unfold triggerCleanup. destruct (observer c); [|apply quiet_refl].
  now apply (quiet_append _ _ [Observer_disconnect]); auto.
Qed.

Lemma quiet_triggerEffect pending c : quiet c (fst (triggerEffect pending c)).
Proof.
  unfold triggerEffect.
  destruct (negb _); [apply quiet_refl|].
  destruct (String.eqb _ "auto"); [apply quiet_refl|].
  destruct (String.eqb _ "scroll"); [|apply quiet_refl].
  now apply (quiet_append _ _ [Observer_observe 0.1]); auto.
Qed.

Lemma quiet_teardown b c : quiet c (teardown b c).
Proof.
  unfold teardown. destruct (session c) as [s|]; [|apply quiet_refl].
  eapply quiet_append; [reflexivity| |now right|reflexivity].
  destruct b; cbn; [|reflexivity].
  now destruct (existsb _ _).
Qed.

Lemma quiet_committed prev same c :
  degenerate (containerRect (layout c)) = true ->
  quiet c (committed prev same c).
Proof.
  intros Hd. unfold committed, afterTrigger.
  pose proof (quiet_afterText prev same c) as Q1.
  assert (Q2 : quiet c (if triggerDepsChanged prev (afterText prev same c)
                        then fst (triggerEffect (hooks c)
                                    (triggerCleanup (afterText prev same c)))
                        else afterText prev same c)).
  { destruct (triggerDepsChanged _ _); trivial.
    eapply quiet_trans; [exact Q1|].
    eapply quiet_trans; [apply quiet_triggerCleanup|apply quiet_triggerEffect]. }
  cbn zeta. destruct (physicsDepsChanged _ _); trivial.
  eapply quiet_trans; [exact Q2|].
  eapply quiet_trans; [apply quiet_teardown|].
  rewrite physicsEffect_degenerate; [apply quiet_refl|].
  rewrite (q_layout _ _ (quiet_teardown true _)), (q_layout _ _ Q2). exact Hd.
Qed.

Lemma quiet_withHooks h c : quiet c (withHooks h c).
Proof. now split. Qed.

Lemma quiet_rerender fuel :
  forall prev same c,
    degenerate (containerRect (layout c)) = true ->
    quiet c (rerender fuel prev same c).
Proof.
  induction fuel as [|fuel IH]; intros prev same c Hd; rewrite rerender_unfold;
    pose proof (quiet_committed prev same c Hd) as Q.
  - now destruct (hooks_eqb _ _).
  - destruct (hooks_eqb _ _); trivial.
    eapply quiet_trans; [exact Q|].
    eapply quiet_trans; [apply (quiet_withHooks (pendingOf prev same c))|].
    apply IH. cbn [withHooks layout]. now rewrite (q_layout _ _ Q).
Qed.

Lemma quiet_setState h c :
  degenerate (containerRect (layout c)) = true -> quiet c (setState h c).
Proof.
  intros Hd. unfold setState. destruct (hooks_eqb _ _); [apply quiet_refl|].
  eapply quiet_trans; [apply (quiet_withHooks h)|].
  now apply quiet_rerender.
Qed.

Lemma quiet_handleTrigger c :
  degenerate (containerRect (layout c)) = true -> quiet c (handleTrigger c).
Proof.
  intros Hd. unfold handleTrigger. destruct (_ && _); [|apply quiet_refl].
  now apply quiet_setState.
Qed.

(** ** The markup read back *)

Lemma append_assoc (a b c : string) : (a ++ b) ++ c = a ++ (b ++ c).
Proof. induction a as [|x a IH]; cbn; [reflexivity|now rewrite IH]. Qed.

Lemma append_nil_r (s : string) : s ++ EmptyString = s.
Proof. induction s as [|a s IH]; cbn; [reflexivity|now rewrite IH]. Qed.

Lemma length_append (a b : string) :
  String.length (a ++ b) = (String.length a + String.length b)%nat.
Proof. induction a as [|x a IH]; cbn; [reflexivity|now rewrite IH]. Qed.

Lemma stripPrefix_app (pre s : string) : stripPrefix pre (pre ++ s) = Some s.
Proof.
  induction pre as [|a pre IH]; cbn; [now destruct s|].
  now rewrite Ascii.eqb_refl.
Qed.

Lemma takeUntil_app (stop : ascii -> bool) (w : string) (a : ascii) (r : string) :
  allChars (fun x => negb (stop x)) w = true -> stop a = true ->
  takeUntil stop (w ++ String a r) = (w, String a r).
Proof.
  intros Hw Ha. induction w as [|x w IH]; cbn.
  - now rewrite Ha.
  - cbn in Hw. apply andb_true_iff in Hw as [Hx Hw].
    apply negb_true_iff in Hx. now rewrite Hx, (IH Hw).
Qed.

Lemma allChars_impl (p q : ascii -> bool) (s : string) :
  (forall a, p a = true -> q a = true) ->
  allChars p s = true -> allChars q s = true.
Proof.
  intros H. induction s as [|a s IH]; cbn; [reflexivity|].
  intros [Ha Hs]%andb_true_iff. now rewrite (H a Ha), (IH Hs).
Qed.

Lemma allChars_app (p : ascii -> bool) (a b : string) :
  allChars p (a ++ b) = allChars p a && allChars p b.
Proof.
  induction a as [|x a IH]; cbn; [reflexivity|].
  now rewrite IH, andb_assoc.
Qed.

Lemma plainClass_noQuote (s : string) :
  plainClass s = true -> allChars (fun x => negb (isQuote x)) s = true.
Proof.
  apply allChars_impl. intros a H. apply negb_true_iff in H.
  apply orb_false_iff in H as [_ H]. unfold isQuote. now rewrite H.
Qed.

Lemma plainText_noLess (s : string) :
  plainText s = true -> allChars (fun x => negb (isLess x)) s = true.
Proof.
  apply allChars_impl. intros a H. apply negb_true_iff in H.
  unfold markupChar in H. cbn zeta in H. apply orb_false_iff in H as [_ H].
  unfold isLess. now rewrite H.
Qed.

Lemma parseSpan_wordHTML lower hws hc w rest :
  plainClass (wordClass lower hws hc w) = true -> plainText w = true ->
  parseSpan (wordHTML lower hws hc w ++ rest) =
  Some (wordSpan lower hws hc w, rest).
Proof.
  intros Hc Hw. unfold parseSpan, wordHTML.
  rewrite !append_assoc.
  rewrite <- (append_assoc "<span class=" quote).
  rewrite stripPrefix_app.
  change (quote ++ ">" ++ w ++ "</span>" ++ rest)
    with (String (ascii_of_nat 34) (">" ++ w ++ "</span>" ++ rest)).
  rewrite takeUntil_app; [|now apply plainClass_noQuote|reflexivity].
  rewrite Hc. cbn [negb].
  change (String (ascii_of_nat 34) (">" ++ w ++ "</span>" ++ rest))
    with ((quote ++ ">") ++ (w ++ "</span>" ++ rest)).
  rewrite stripPrefix_app.
  change ("</span>" ++ rest) with (String "<"%char ("/span>" ++ rest)).
  rewrite takeUntil_app; [|now apply plainText_noLess|reflexivity].
  rewrite Hw. cbn [negb].
  change (String "<"%char ("/span>" ++ rest)) with ("</span>" ++ rest).
  now rewrite stripPrefix_app.
Qed.

Lemma parseSpans_join lower hws hc (ws : list string) :
  ws <> [] ->
  Forall (fun w => plainClass (wordClass lower hws hc w) = true /\
                   plainText w = true) ws ->
  forall fuel, (length ws <= fuel)%nat ->
    parseSpans fuel (join (map (wordHTML lower hws hc) ws)) =
    Some (map (wordSpan lower hws hc) ws).
Proof.
  induction ws as [|w ws IH]; [congruence|]. intros _ HF fuel Hfuel.
  inversion HF as [|? ? [Hc Hw] HF']; subst.
  destruct fuel as [|fuel]; [cbn in Hfuel; lia|].
  cbn [length] in Hfuel. apply le_S_n in Hfuel.
  destruct ws as [|w' ws].
  - cbn [map join String.concat parseSpans].
    rewrite <- (append_nil_r (wordHTML lower hws hc w)).
    now rewrite parseSpan_wordHTML.
  - change (join (map (wordHTML lower hws hc) (w :: w' :: ws)))
      with (wordHTML lower hws hc w ++
            String " "%char (join (map (wordHTML lower hws hc) (w' :: ws)))).
    cbn [parseSpans]. rewrite parseSpan_wordHTML by assumption.
    change (isSpace " "%char) with true. cbn iota.
    rewrite IH; [reflexivity|discriminate|assumption|assumption].
Qed.

Lemma splitBy_plain (sep : ascii -> bool) (t : string) :
  plainText t = true -> Forall (fun w => plainText w = true) (splitBy sep t).
Proof.
  induction t as [|a t IH]; cbn [plainText allChars splitBy].
  - intros _. now repeat constructor.
  - intros [Ha Ht]%andb_true_iff. specialize (IH Ht).
    destruct (sep a).
    + constructor; [reflexivity|exact IH].
    + destruct (splitBy sep t) as [|w ws].
      { constructor; [|constructor].
        unfold plainText. cbn [allChars]. now rewrite Ha. }
      inversion IH as [|? ? Hw Hws]; subst.
      constructor; [|exact Hws].
      unfold plainText in *. cbn [allChars]. now rewrite Ha, Hw.
Qed.

Lemma wordClass_plain lower hws hc w :
  plainClass hc = true -> plainClass (wordClass lower hws hc w) = true.
Proof.
  intros H. unfold wordClass, plainClass. rewrite allChars_app.
  destruct (isHighlighted lower hws w); [|reflexivity].
  unfold plainClass in H. now rewrite H.
Qed.

Lemma join_length (f : string -> string) (ws : list string) :
  (length ws <= S (String.length (join (map f ws))))%nat.
Proof.
  induction ws as [|w ws IH]; [cbn; lia|].
  destruct ws as [|w' ws]; [cbn; lia|].
  change (join (map f (w :: w' :: ws)))
    with (f w ++ String " "%char (join (map f (w' :: ws)))).
  rewrite length_append. cbn [String.length length] in *. lia.
Qed.

(** The markup of the text effect, read by the parser, gives the spans of
    [renderWords], whatever the case mapping. *)
Lemma parseHTML_newHTML lower (p : Props) :
  plainProps p = true ->
  parseHTML (newHTML lower p) = Some (renderWords lower p).
Proof.
  intros [Ht Hc]%andb_true_iff. unfold parseHTML, newHTML, renderWords.
  apply parseSpans_join.
  - apply splitBy_nonempty.
  - pose proof (splitBy_plain isSpace (text p) Ht) as F.
    unfold split. rewrite Forall_forall in *. intros w Hw.
    split; [now apply wordClass_plain|now apply F].
  - apply join_length.
Qed.

(** * The claims *)

(** The spec's own example: three tokens, the second one emphasized, three
    word bodies and four boundary bodies. *)
Example spec_example :
  let c := mount (exampleHost "Alpha Beta Gamma" "auto")
                 (exampleLayout 300 100) exampleRandom in
  map (fun sp => (textContent sp, className sp)) (textDom c) =
    [("Alpha", "word "); ("Beta", "word highlighted"); ("Gamma", "word ")] /\
  tokenBodyCount c = 3 /\
  option_map (fun s => length (filter isStatic (bodiesOf (world s)))) (session c)
    = Some 4.
Proof. vm_compute. auto. Qed.

(** ** C2 *)

(** C2: a token is marked emphasized exactly when its lowercase form equals
    the lowercase form of some entry of [highlightWords]; the mark is the
    highlight class on the token's span, and tokens (or entries) that differ
    only in case are treated alike.  Holds for any case mapping [lower]. *)
Theorem C2_emphasis_case_insensitive :
  forall (lower : string -> string) (p : Props) (word word' : string),
    lower word = lower word' ->
    (isHighlighted lower (highlightWords p) word = true <->
     exists hw, In hw (highlightWords p) /\ lower word = lower hw) /\
    isHighlighted lower (highlightWords p) word' =
      isHighlighted lower (highlightWords p) word /\
    renderWords lower p =
      map (fun w =>
             {| className :=
                  "word " ++ (if isHighlighted lower (highlightWords p) w
                              then highlightClass p else EmptyString);
                textContent := w |})
          (split (text p)).
Proof.
  intros lower p word word' E. split; [apply isHighlighted_iff|split].
  - unfold isHighlighted. now rewrite E.
  - reflexivity.
Qed.

Lemma C2_witness :
  toLowerCase "Seo" = toLowerCase "SEO" /\
  isHighlighted toLowerCase ["Marketing"; "SEO"] "Seo" = true /\
  isHighlighted toLowerCase ["marketing"; "seo"] "Seo" = true.
Proof.
  split; [reflexivity|].
  pose (p := fun hws =>
          Build_Props "Seo" hws "highlighted" "auto" "transparent" false 1 0.2 "1rem").
  split.
  - apply (proj1 (C2_emphasis_case_insensitive toLowerCase
                    (p ["Marketing"; "SEO"]) "Seo" "SEO" eq_refl)).
    exists "SEO". split; [right; now left|reflexivity].
  - apply (proj1 (C2_emphasis_case_insensitive toLowerCase
                    (p ["marketing"; "seo"]) "Seo" "SEO" eq_refl)).
    exists "seo". split; [right; now left|reflexivity].
Defined.

(** ** C9 *)

(** C9, as stated, fails: a host that supplies no field at all is accepted,
    every field takes a default of the component's own, and the instance
    even activates and starts a session. *)
Lemma C9_counterexample :
  allSupplied noProps = false /\
  FallingText_props noProps = defaultProps /\
  let c := mount noProps (exampleLayout 300 100) exampleRandom in
  activation c = Active /\ tokenBodyCount c = 1.
Proof. vm_compute. auto. Qed.

(** C9 (amended): every configuration field is optional; a field the host
    supplies is used as given, and a field it leaves out takes the default
    written in the parameter list: empty text, no highlight words, class
    [highlighted], trigger [auto], background [transparent], wireframes off,
    gravity 1, stiffness 0.2, font size [1rem]. *)
Theorem C9_fields_optional_with_defaults :
  forall h : HostProps,
    let p := FallingText_props h in
    text p = match h_text h with Some v => v | None => EmptyString end /\
    highlightWords p =
      match h_highlightWords h with Some v => v | None => [] end /\
    highlightClass p =
      match h_highlightClass h with Some v => v | None => "highlighted" end /\
    trigger p = match h_trigger h with Some v => v | None => "auto" end /\
    backgroundColor p =
      match h_backgroundColor h with Some v => v | None => "transparent" end /\
    wireframes p = match h_wireframes h with Some v => v | None => false end /\
    gravity p = match h_gravity h with Some v => v | None => 1%Q end /\
    mouseConstraintStiffness p =
      match h_mouseConstraintStiffness h with Some v => v | None => 0.2%Q end /\
    fontSize p = match h_fontSize h with Some v => v | None => "1rem" end.
Proof. intros h. cbn. repeat split. Qed.

(** ** C7 *)

(** C7: a session start creates exactly four static bodies: the floor
    centred at (width/2, height + 25), width wide and 50 thick; the ceiling
    centred at (width/2, -25), width wide and 50 thick; the left and right
    walls centred at (-25, height/2) and (width + 25, height/2), 50 thick
    and height tall.  Each lies just outside the container: its inner face
    is the container's edge. *)
Theorem C7_four_boundaries :
  forall c : Comp,
    effectStarted (hooks c) = true ->
    isInitialized (hooks c) = true ->
    degenerate (containerRect (layout c)) = false ->
    let width := r_width (containerRect (layout c)) in
    let height := r_height (containerRect (layout c)) in
    exists s fl lw rw ce,
      session (physicsEffect c) = Some s /\
      filter isStatic (bodiesOf (world s)) = [fl; lw; rw; ce] /\
      (b_x fl, b_y fl, b_width fl, b_height fl)
        = (width / 2, height + 25, width, 50)%Q /\
      (b_x lw, b_y lw, b_width lw, b_height lw)
        = (-25, height / 2, 50, height)%Q /\
      (b_x rw, b_y rw, b_width rw, b_height rw)
        = (width + 25, height / 2, 50, height)%Q /\
      (b_x ce, b_y ce, b_width ce, b_height ce)
        = (width / 2, -25, width, 50)%Q /\
      (b_y fl - b_height fl / 2 == height)%Q /\
      (b_y ce + b_height ce / 2 == 0)%Q /\
      (b_x lw + b_width lw / 2 == 0)%Q /\
      (b_x rw - b_width rw / 2 == width)%Q.
Proof.
  intros c He Hi Hd width height.
  destruct (physicsEffect_builds c He Hi Hd) as (Hs & _ & _).
  exists (buildSession c), (floor width height), (leftWall width height),
         (rightWall width height), (ceiling width height).
  split; [exact Hs|]. split; [apply static_bodies_buildSession|].
  repeat split; cbn; field.
Qed.

Lemma C7_witness :
  exists s,
    session (physicsEffect exampleComp) = Some s /\
    map (fun b => (b_x b, b_y b, b_width b, b_height b))
        (filter isStatic (bodiesOf (world s))) =
    [(300 / 2, 100 + 25, 300, 50); (-25, 100 / 2, 50, 100);
     (300 + 25, 100 / 2, 50, 100); (300 / 2, -25, 300, 50)]%Q.
Proof.
  destruct (C7_four_boundaries exampleComp eq_refl eq_refl eq_refl)
    as (s & fl & lw & rw & ce & Hs & Hf & H1 & H2 & H3 & H4 & _).
  exists s. split; [exact Hs|].
  rewrite Hf. cbn [map]. now rewrite H1, H2, H3, H4.
Defined.

(** ** C8 *)

Lemma jitter_bounds (r : Q) :
  (0 <= r)%Q -> (r < 1)%Q ->
  (-2.5 <= (r - 0.5) * 5)%Q /\ ((r - 0.5) * 5 <= 2.5)%Q /\
  (-0.025 <= (r - 0.5) * 0.05)%Q /\ ((r - 0.5) * 0.05 <= 0.025)%Q.
Proof. intros H0 H1. repeat split; lra. Qed.

(** C8: with [Math.random] drawing from [0, 1), the j-th word body gets
    horizontal velocity (r - 0.5) * 5 from one draw r and angular velocity
    (r' - 0.5) * 0.05 from the next draw r', no draw being used twice; so the
    horizontal velocity lies in [-2.5, 2.5], the vertical velocity is 0 and
    the angular velocity lies in [-0.025, 0.025].  Both maps are affine and
    reach every value of their half-open range, so uniform draws give
    uniform velocities. *)
Theorem C8_initial_jitter :
  forall c : Comp,
    (forall k, (0 <= random c k)%Q /\ (random c k < 1)%Q) ->
    (forall j wb,
       nth_error (wordBodies (buildSession c)) j = Some wb ->
       velocity_x (snd wb) = ((random c (draws c + 2 * j) - 0.5) * 5)%Q /\
       velocity_y (snd wb) = 0%Q /\
       angularVelocity (snd wb) =
         ((random c (S (draws c + 2 * j)) - 0.5) * 0.05)%Q /\
       (-2.5 <= velocity_x (snd wb))%Q /\ (velocity_x (snd wb) <= 2.5)%Q /\
       (-0.025 <= angularVelocity (snd wb))%Q /\
       (angularVelocity (snd wb) <= 0.025)%Q) /\
    (forall v, (-2.5 <= v)%Q -> (v < 2.5)%Q ->
       exists r, (0 <= r)%Q /\ (r < 1)%Q /\ ((r - 0.5) * 5 == v)%Q) /\
    (forall w, (-0.025 <= w)%Q -> (w < 0.025)%Q ->
       exists r, (0 <= r)%Q /\ (r < 1)%Q /\ ((r - 0.5) * 0.05 == w)%Q).
Proof.
  intros c Hr. split; [|split].
  - intros j wb H. cbn [buildSession wordBodies] in H.
    apply makeWordBodies_nth in H. subst wb.
    cbn [snd wordBody velocity_x velocity_y angularVelocity].
    destruct (Hr (draws c + 2 * j)%nat) as [A1 A2].
    destruct (Hr (S (draws c + 2 * j))) as [B1 B2].
    destruct (jitter_bounds _ A1 A2) as (X1 & X2 & _ & _).
    destruct (jitter_bounds _ B1 B2) as (_ & _ & Y1 & Y2).
    auto 10.
  - intros v H1 H2. exists (v * 0.2 + 0.5)%Q. repeat split; try lra.
  - intros w H1 H2. exists (w * 20 + 0.5)%Q. repeat split; try lra.
Qed.

Lemma exampleRandom_range (k : nat) :
  (0 <= exampleRandom k)%Q /\ (exampleRandom k < 1)%Q.
Proof.
  unfold exampleRandom.
  pose proof (Nat.mod_upper_bound k 4 ltac:(discriminate)) as Hk.
  destruct (k mod 4) as [|[|[|[|n]]]]; try (exfalso; lia);
    (split; [apply Qle_bool_iff|apply Qlt_alt]; reflexivity).
Qed.

Lemma C8_witness :
  (forall k, (0 <= random exampleComp k)%Q /\ (random exampleComp k < 1)%Q) /\
  exists wb,
    nth_error (wordBodies (buildSession exampleComp)) 1 = Some wb /\
    (-2.5 <= velocity_x (snd wb))%Q /\ (velocity_x (snd wb) <= 2.5)%Q /\
    velocity_y (snd wb) = 0%Q /\
    (-0.025 <= angularVelocity (snd wb))%Q /\
    (angularVelocity (snd wb) <= 0.025)%Q.
Proof.
  split; [exact exampleRandom_range|].
  eexists. split; [reflexivity|].
  destruct (proj1 (C8_initial_jitter exampleComp exampleRandom_range)
                  1%nat _ eq_refl)
    as (_ & V & _ & A & B & C & D).
  auto.
Defined.

(** ** C3 *)

Lemma quiet_step c e :
  degenerate (containerRect (layout c)) = true ->
  creations (step c e) = creations c /\
  (session c = None -> session (step c e) = None).
Proof.
  intros Hd.
  assert (G : forall c', quiet c c' ->
            creations c' = creations c /\ (session c = None -> session c' = None))
    by (intros c' []; auto).
  destruct e as [h same| | |entry more|lay]; cbn [step].
  - apply G. eapply quiet_trans; [|now apply quiet_rerender].
    now split.
  - apply G. destruct (String.eqb _ _); [now apply quiet_handleTrigger|apply quiet_refl].
  - apply G. destruct (String.eqb _ _); [now apply quiet_handleTrigger|apply quiet_refl].
  - apply G. destruct (observing c); [|apply quiet_refl].
    unfold observerCallback. destruct (isIntersecting entry); [|apply quiet_refl].
    eapply quiet_trans; [|now apply quiet_setState].
    now apply (quiet_append _ _ [Observer_disconnect]); auto.
  - now split.
Qed.

(** C3: when the container measures a width or a height that is not
    positive, the physics effect returns before its first call: the instance
    is left as it was.  Hence mounting under such a layout starts no session
    and makes no resource-creation call, and no later event makes one while
    the layout stays degenerate. *)
Theorem C3_degenerate_layout_allocates_nothing :
  forall (h : HostProps) (lay : Layout) (rnd : nat -> Q) (c : Comp) (e : Event),
    (r_width (containerRect lay) <= 0)%Q \/
    (r_height (containerRect lay) <= 0)%Q ->
    (session (mount h lay rnd) = None /\
     creations (mount h lay rnd) = [] /\
     canvasDom (mount h lay rnd) = []) /\
    (layout c = lay ->
     physicsEffect c = c /\
     creations (step c e) = creations c /\
     (session c = None -> session (step c e) = None)).
Proof.
  intros h lay rnd c e Hd%degenerate_iff. split.
  - pose proof (quiet_rerender 2 None true (unmounted h lay rnd) Hd) as [Q1 Q2 _].
    fold (renderLoop None true (unmounted h lay rnd)) in Q1, Q2.
    rewrite <- mount_eq in Q1, Q2.
    pose proof (Q2 eq_refl) as Hs.
    repeat split; trivial.
    rewrite (snd_canvas _ (inv_sound _ (Inv_mount h lay rnd))). now rewrite Hs.
  - intros <-. split; [now apply physicsEffect_degenerate|].
    now apply quiet_step.
Qed.

Lemma C3_witness :
  let h := exampleHost "Alpha Beta Gamma" "auto" in
  let lay := exampleLayout 300 0 in
  ((r_width (containerRect lay) <= 0)%Q \/ (r_height (containerRect lay) <= 0)%Q) /\
  session (mount h lay exampleRandom) = None /\
  creations (mount h lay exampleRandom) = [] /\
  activation (mount h lay exampleRandom) = Active.
Proof.
  intros h lay.
  assert (Hd : (r_width (containerRect lay) <= 0)%Q \/
               (r_height (containerRect lay) <= 0)%Q)
    by (right; cbn; lra).
  destruct (C3_degenerate_layout_allocates_nothing
              h lay exampleRandom (mount h lay exampleRandom) Click Hd)
    as [(H1 & H2 & _) _].
  split; [exact Hd|]. split; [exact H1|]. split; [exact H2|].
  vm_compute. reflexivity.
Defined.

(** ** C5 *)

Lemma activation_Idle c : activation c = Idle <-> effectStarted (hooks c) = false.
Proof. unfold activation. destruct (effectStarted _); split; congruence. Qed.

Lemma activation_Active c : activation c = Active <-> effectStarted (hooks c) = true.
Proof. unfold activation. destruct (effectStarted _); split; congruence. Qed.

Lemma setState_frame h c :
  props (setState h c) = props c /\ layout (setState h c) = layout c /\
  hooks_le h (hooks (setState h c)).
Proof.
  unfold setState. destruct (hooks_eqb h (hooks c)) eqn:E.
  - apply hooks_eqb_eq in E. subst h. auto using hooks_le_refl.
  - unfold renderLoop.
    destruct (rerender_frame 2 (Some (props c, hooks c)) (wordsStable c) (withHooks h c))
      as [F1 F2].
    repeat split; trivial; apply (rerender_hooks_le 2 _ _ (withHooks h c)).
Qed.

Lemma handleTrigger_active c :
  effectStarted (hooks c) = true -> handleTrigger c = c.
Proof. unfold handleTrigger. now intros ->. Qed.

Lemma handleTrigger_idle c :
  manualTrigger c = true ->
  effectStarted (hooks (handleTrigger c)) = true /\
  props (handleTrigger c) = props c.
Proof.
  unfold manualTrigger, handleTrigger. intros ->.
  destruct (effectStarted (hooks c)) eqn:E; cbn [negb andb]; [auto|].
  destruct (setState_frame
              {| effectStarted := true; isInitialized := isInitialized (hooks c) |} c)
    as (F1 & _ & [F3 _]).
  auto.
Qed.

Lemma step_bound c e :
  boundEvent (trigger (props c)) e ->
  step c e = handleTrigger c /\ manualTrigger c = true.
Proof.
  unfold manualTrigger. intros [[E ->]|[E ->]]; cbn [step]; rewrite E; auto.
Qed.

Lemma run_bound_active c e n :
  boundEvent (trigger (props c)) e ->
  effectStarted (hooks c) = true ->
  run c (repeat e n) = c.
Proof.
  intros Hb He. induction n as [|n IH]; [reflexivity|].
  cbn [repeat run fold_left]. destruct (step_bound c e Hb) as [-> _].
  rewrite (handleTrigger_active c He). exact IH.
Qed.

(** C5: under trigger [click] (resp. [hover]) the first click (resp.
    pointer-over) on the container takes an idle instance to Active; on an
    active instance the same event changes nothing at all, so any number of
    repetitions after the first leaves the instance exactly as the first
    left it. *)
Theorem C5_manual_trigger_once :
  forall (c : Comp) (e : Event) (n : nat),
    boundEvent (trigger (props c)) e ->
    (activation c = Idle -> activation (step c e) = Active) /\
    (activation c = Active -> step c e = c) /\
    run c (e :: repeat e n) = step c e.
Proof.
  intros c e n Hb. destruct (step_bound c e Hb) as [Es Hm].
  destruct (handleTrigger_idle c Hm) as [Ha Hp].
  split; [|split].
  - intros _. rewrite Es. now apply activation_Active.
  - intros Ha'%activation_Active. rewrite Es. now apply handleTrigger_active.
  - cbn [run fold_left]. apply run_bound_active; rewrite Es; trivial.
    now rewrite Hp.
Qed.

Lemma C5_witness :
  boundEvent (trigger (props clickComp)) Click /\
  activation clickComp = Idle /\
  activation (step clickComp Click) = Active /\
  tokenBodyCount (step clickComp Click) = 3 /\
  run clickComp [Click; Click; Click] = step clickComp Click.
Proof.
  assert (Hb : boundEvent (trigger (props clickComp)) Click)
    by (left; split; reflexivity).
  destruct (C5_manual_trigger_once clickComp Click 2 Hb) as (H1 & _ & H3).
  split; [exact Hb|]. split; [reflexivity|].
  split; [exact (H1 eq_refl)|]. split; [reflexivity|exact H3].
Defined.

(** ** C6 *)

Lemma mount_first_commit h lay rnd :
  committed None true (unmounted h lay rnd) =
    fst (textEffect (hooks (unmounted h lay rnd)) (unmounted h lay rnd)) /\
  pendingOf None true (unmounted h lay rnd) =
    {| effectStarted := false; isInitialized := true |}.
Proof. split; reflexivity. Qed.

(** Mounting is the first commit, which writes the markup and asks for
    [isInitialized], followed by the renders that this state update
    causes. *)
Lemma mount_second_commit h lay rnd :
  mount h lay rnd =
  rerender 1 (Some (FallingText_props h,
                    {| effectStarted := false; isInitialized := false |}))
           (suppliesWords h) (initialized h lay rnd).
Proof.
  rewrite mount_eq. unfold renderLoop. rewrite rerender_unfold.
  destruct (mount_first_commit h lay rnd) as [-> ->]. reflexivity.
Qed.

(** The trigger effect, run for an initialized instance under [scroll],
    leaves a connected observer of threshold 0.1. *)
Lemma observer_committed_scroll prev same c :
  triggerDepsChanged prev c = true ->
  isInitialized (hooks c) = true ->
  trigger (props c) = "scroll" ->
  observer (committed prev same c) =
  Some {| threshold := 0.1; connected := true |}.
Proof.
  intros Ht Hi Hs. unfold committed, afterTrigger. cbn zeta.
  rewrite (triggerDepsChanged_frame _ c _ (sameFrame_afterText _ same c)), Ht.
  assert (Ho : observer (fst (triggerEffect (hooks c)
                                (triggerCleanup (afterText prev same c)))) =
               Some {| threshold := 0.1; connected := true |}).
  { unfold triggerEffect.
    pose proof (sameFrame_trans _ _ _ (sameFrame_afterText prev same c)
                  (sameFrame_triggerCleanup (afterText prev same c)))
      as [Fp Fh _ _].
    rewrite Fp, Fh, Hi, Hs. reflexivity. }
  destruct (physicsDepsChanged _ _);
    now rewrite ?observer_physicsEffect, ?observer_teardown.
Qed.

(** Under a trigger other than [auto] no commit asks for [effectStarted]. *)
Lemma rerender_stays_idle fuel :
  forall prev same c,
    String.eqb (trigger (props c)) "auto" = false ->
    effectStarted (hooks c) = false ->
    effectStarted (hooks (rerender fuel prev same c)) = false.
Proof.
  induction fuel as [|fuel IH]; intros prev same c Ht He; rewrite rerender_unfold;
    pose proof (sameFrame_committed prev same c) as [Fp Fh _ _].
  - destruct (hooks_eqb _ _); now rewrite Fh.
  - destruct (hooks_eqb _ _); [now rewrite Fh|].
    apply IH; cbn [withHooks props hooks pendingOf effectStarted].
    + now rewrite Fp.
    + now rewrite He, Ht, andb_false_r.
Qed.

Lemma mount_scroll h lay rnd :
  trigger (FallingText_props h) = "scroll" ->
  activation (mount h lay rnd) = Idle /\
  observer (mount h lay rnd) = Some {| threshold := 0.1; connected := true |}.
Proof.
  intros Ht. split.
  - apply activation_Idle. rewrite mount_eq.
    apply (rerender_stays_idle 2 None true (unmounted h lay rnd));
      [|reflexivity].
    change (props (unmounted h lay rnd)) with (FallingText_props h).
    now rewrite Ht.
  - rewrite mount_second_commit.
    set (c1 := initialized h lay rnd).
    change (FallingText_props h) with (props c1) in Ht |- *.
    assert (Hh : hooks c1 = {| effectStarted := false; isInitialized := true |})
      by reflexivity.
    clearbody c1.
    rewrite rerender_unfold.
    assert (P : pendingOf (Some (props c1,
                                 {| effectStarted := false; isInitialized := false |}))
                          (suppliesWords h) c1 = hooks c1).
    { unfold pendingOf. rewrite Hh, Ht. cbn [effectStarted isInitialized orb].
      change ("scroll" =? "auto") with false. now rewrite andb_false_r. }
    rewrite P, hooks_eqb_refl.
    apply observer_committed_scroll; trivial.
    + unfold triggerDepsChanged. rewrite Hh. cbn. apply orb_true_r.
    + now rewrite Hh.
Qed.







(** ** C10 *)

Lemma commit_initializes prev same c :
  isInitialized (hooks c) = false ->
  isInitialized (snd (commit prev same c)) = true ->
  textDepsChanged prev same c = true /\
  hasMarkup (log (fst (commit prev same c))) = true.
Proof.
  rewrite commit_eq. cbn [fst snd pendingOf isInitialized]. intros -> H.
  cbn [orb] in H. split; [exact H|].
  eapply hasMarkup_grows; [apply logGrows_committed|].
  now apply hasMarkup_afterText.
Qed.

Lemma domOK_nonempty c : domOK c -> textDom c <> [].
Proof.
  intros (hws & hc & E) H. rewrite E in H. apply map_eq_nil in H.
  now apply (splitBy_nonempty isSpace (text (props c))).
Qed.

(** C10: in every reachable instance, each resource-creation call of the
    log comes after a write of the token markup; a live session implies
    that both flags are set; the text target holds the token spans; the
    physics effect does nothing unless both flags are set; and a commit
    that turns the initialization flag on is one that ran the text effect,
    whose markup write is already in the log. *)
Theorem C10_physics_only_after_markup :
  forall c : Comp,
    reachable c ->
    (forall pre call post,
       log c = (pre ++ call :: post)%list ->
       isResourceCreation call = true ->
       exists html, In (SetInnerHTML html) pre) /\
    (session c <> None ->
     effectStarted (hooks c) = true /\ isInitialized (hooks c) = true) /\
    (textDom c <> [] /\ hasMarkup (log c) = true) /\
    (forall c', effectStarted (hooks c') && isInitialized (hooks c') = false ->
                physicsEffect c' = c') /\
    (forall prev same c',
       isInitialized (hooks c') = false ->
       isInitialized (snd (commit prev same c')) = true ->
       textDepsChanged prev same c' = true /\
       hasMarkup (log (fst (commit prev same c'))) = true).
Proof.
  intros c [Hs Hd Hi]%reachable_Inv.
  split; [apply markupFirst_sound, (snd_order _ Hs)|].
  split; [apply (snd_session _ Hs)|].
  split; [split; [now apply domOK_nonempty|apply (snd_markup _ Hs Hi)]|].
  split; [apply physicsEffect_guard|apply commit_initializes].
Qed.

Lemma C10_witness :
  reachable (step autoComp Click) /\
  session (step autoComp Click) <> None /\
  effectStarted (hooks (step autoComp Click)) = true /\
  isInitialized (hooks (step autoComp Click)) = true /\
  hasMarkup (log (step autoComp Click)) = true.
Proof.
  assert (R : reachable (step autoComp Click))
    by (apply reach_step, reach_mount).
  assert (S : session (step autoComp Click) <> None) by discriminate.
  destruct (C10_physics_only_after_markup _ R) as (_ & F & (_ & M) & _).
  destruct (F S) as [F1 F2]. auto.
Defined.

(** ** C4 *)

Lemma teardown_no_throw b c : Sound c -> thrown (teardown b c) = [].
Proof.
  intros [H1 H2 _ _ _ _ _]. unfold teardown.
  destruct (session c) as [s|]; [|exact H1].
  cbn. rewrite H1, H2. destruct b; cbn; [|reflexivity].
  now rewrite Nat.eqb_refl.
Qed.

Lemma teardown_session b c : session (teardown b c) = None.
Proof. unfold teardown. now destruct (session c) eqn:E. Qed.

Lemma teardown_idle b c : session c = None -> teardown b c = c.
Proof. unfold teardown. now intros ->. Qed.

Lemma triggerCleanup_observer c : observer (triggerCleanup c) = None.
Proof. unfold triggerCleanup. now destruct (observer c) eqn:E. Qed.

Lemma triggerCleanup_idle c : observer c = None -> triggerCleanup c = c.
Proof. unfold triggerCleanup. now intros ->. Qed.



Lemma cleanup_once b s c :
  Sound c -> session c = Some s ->
  thrown (cleanup b s c) = [] /\
  canvasDom (cleanup true s c) = [] /\
  log (cleanup b s c) =
    (log c ++ [Render_stop; Runner_stop] ++
     (if b then [RemoveChild (renderCanvas s)] else []) ++
     [World_clear; Engine_clear])%list.
Proof.
  intros [H1 H2 _ _ _ _ _] Es. rewrite Es in H2.
  unfold cleanup. cbn [thrown canvasDom log]. rewrite H1, H2.
  cbn [existsb filter]. rewrite Nat.eqb_refl. cbn [orb negb andb].
  rewrite andb_false_r. auto.
Qed.





(** ** C1 *)

(** C1, as stated, fails: the text is cut at space characters only, so a
    text whose two words are separated by a tab yields one piece and one
    word body, where the spec counts two whitespace-delimited tokens; and
    two consecutive spaces yield an empty piece with a body of its own. *)
Lemma C1_counterexample :
  let t := "Alpha" ++ tab ++ "Beta" in
  let c := mount (exampleHost t "auto") (exampleLayout 300 100) exampleRandom in
  let t2 := "Alpha  Beta" in
  let c2 := mount (exampleHost t2 "auto") (exampleLayout 300 100) exampleRandom in
  activation c = Active /\
  tokenBodyCount c = 1 /\ length (whitespace_tokens t) = 2 /\
  tokenBodyCount c2 = 3 /\ length (whitespace_tokens t2) = 2.
Proof. vm_compute. auto. Qed.

Lemma mount_frame h lay rnd :
  props (mount h lay rnd) = FallingText_props h /\
  layout (mount h lay rnd) = lay.
Proof. rewrite mount_eq. apply (rerender_frame 2 None true). Qed.

Lemma mount_activation h lay rnd :
  degenerate (containerRect lay) = false ->
  activation (mount h lay rnd) = Active ->
  exists s, session (mount h lay rnd) = Some s /\
            length (wordBodies s) =
            S (countChars isSpace (text (props (mount h lay rnd)))).
Proof.
  intros Hg Ha%activation_Active.
  rewrite (proj1 (mount_frame h lay rnd)).
  rewrite mount_eq in *. unfold renderLoop in *.
  apply (rerender_activation 2 None true (unmounted h lay rnd)); trivial.
  - apply Sound_unmounted.
  - now right.
  - discriminate.
Qed.

Lemma step_frame c e :
  (forall lay, e <> Relayout lay) -> layout (step c e) = layout c.
Proof.
  intros He. destruct e as [h same| | |entry more|lay]; cbn [step].
  - apply (rerender_frame 2 _ _ (withHost _ c)).
  - destruct (String.eqb _ _); trivial. unfold handleTrigger.
    destruct (_ && _); trivial. apply setState_frame.
  - destruct (String.eqb _ _); trivial. unfold handleTrigger.
    destruct (_ && _); trivial. apply setState_frame.
  - destruct (observing c); trivial. unfold observerCallback.
    destruct (isIntersecting entry); trivial.
    now rewrite (proj1 (proj2 (setState_frame _ _))).
  - now destruct (He lay).
Qed.

Lemma setState_activation h c :
  Inv c ->
  degenerate (containerRect (layout c)) = false ->
  effectStarted (hooks c) = false ->
  isInitialized h = isInitialized (hooks c) ->
  effectStarted (hooks (setState h c)) = true ->
  exists s, session (setState h c) = Some s /\
            length (wordBodies s) =
            S (countChars isSpace (text (props (setState h c)))).
Proof.
  intros [Hs Hd Hi] Hg He Hh. rewrite (proj1 (setState_frame h c)).
  unfold setState. destruct (hooks_eqb h (hooks c)) eqn:E.
  - congruence.
  - unfold renderLoop. intros Hfin.
    apply (rerender_activation 2 (Some (props c, hooks c)) (wordsStable c) (withHooks h c));
      trivial.
    + apply Sound_withHooks; trivial; [congruence|].
      split; [congruence|now rewrite Hh].
    + left. destruct Hd as (hws & hc & D). now exists hws, hc.
    + intros _. now exists (props c), (hooks c).
Qed.

Lemma step_activation c e :
  Inv c ->
  degenerate (containerRect (layout c)) = false ->
  activation c = Idle -> activation (step c e) = Active ->
  exists s, session (step c e) = Some s /\
            length (wordBodies s) =
            S (countChars isSpace (text (props (step c e)))).
Proof.
  intros HI Hg He%activation_Idle Ha%activation_Active.
  destruct e as [h same| | |entry more|lay]; cbn [step] in *.
  - destruct HI as [Hs Hd Hi].
    rewrite (proj1 (rerender_frame 2 _ _ (withHost h c))).
    apply (rerender_activation 2 _ _ (withHost h c));
      trivial.
    + now apply Sound_withHost.
    + cbn [textDepsChanged withHost props].
      destruct (String.eqb (text (props c)) (text (FallingText_props h))) eqn:E;
        [|now right].
      left. apply String.eqb_eq in E. destruct Hd as (hws & hc & D).
      exists hws, hc. cbn [withHost textDom props]. now rewrite <- E.
    + cbn [withHost hooks]. congruence.
  - destruct (String.eqb _ _); [|congruence]. unfold handleTrigger in *.
    destruct (_ && _); [|congruence]. now apply setState_activation.
  - destruct (String.eqb _ _); [|congruence]. unfold handleTrigger in *.
    destruct (_ && _); [|congruence]. now apply setState_activation.
  - destruct (observing c); [|congruence]. unfold observerCallback in *.
    destruct (isIntersecting entry); [|congruence].
    apply setState_activation; trivial.
    destruct HI as [Hs Hd Hi]. split.
    + now apply Sound_withObserver.
    + destruct Hd as (hws & hc & D). now exists hws, hc.
    + exact Hi.
  - cbn [withLayout hooks] in Ha. congruence.
Qed.

(** C1 (amended): the text is cut at every space character, in order:
    joining the pieces with single spaces gives the text back, no piece
    contains a space, and there is one piece more than there are spaces
    (empty pieces included).  On a text whose only whitespace is single
    spaces between non-empty words the pieces are the whitespace-delimited
    tokens.  When the text and the highlight class carry no markup
    characters, the markup the text effect writes is read by the browser as
    one span per piece, in order; the text target of a reachable instance
    then holds one span per piece, and when moreover the container's
    rectangle is not degenerate at activation, the session built then,
    whether on mount or by a later event, holds one word body per piece. *)
Theorem C1_one_body_per_space_separated_piece :
  forall (t : string) (h : HostProps) (lay : Layout) (rnd : nat -> Q)
         (c : Comp) (e : Event),
    degenerate (containerRect lay) = false ->
    (join (split t) = t /\
     Forall (fun w => countChars isSpace w = 0) (split t) /\
     length (split t) = S (countChars isSpace t)) /\
    (allChars (fun ch => Bool.eqb (isWhitespace ch) (isSpace ch)) t = true ->
     forallb (fun w => negb (isEmpty w)) (split t) = true ->
     whitespace_tokens t = split t) /\
    (plainProps (FallingText_props h) = true ->
     forall lower,
       parseHTML (newHTML lower (FallingText_props h)) =
         Some (renderWords lower (FallingText_props h)) /\
       map textContent (renderWords lower (FallingText_props h)) =
         split (text (FallingText_props h))) /\
    (plainProps (FallingText_props h) = true ->
     activation (mount h lay rnd) = Active ->
     exists s, session (mount h lay rnd) = Some s /\
               length (wordBodies s) =
               length (split (text (props (mount h lay rnd))))) /\
    (reachable c ->
     (plainProps (props c) = true ->
      map textContent (textDom c) = split (text (props c))) /\
     (layout c = lay -> plainProps (props (step c e)) = true ->
      activation c = Idle -> activation (step c e) = Active ->
      exists s, session (step c e) = Some s /\
                length (wordBodies s) =
                length (split (text (props (step c e)))))).
Proof.
  intros t h lay rnd c e Hg.
  split; [|split; [|split; [|split]]].
  - split; [apply join_split|]. split; [apply splitBy_pieces|apply splitBy_length].
  - apply split_whitespace_tokens.
  - intros Hp lower. split; [now apply parseHTML_newHTML|].
    unfold renderWords. rewrite map_map. cbn [wordSpan textContent].
    apply map_id.
  - intros _ Ha. destruct (mount_activation h lay rnd Hg Ha) as (s & S1 & S2).
    exists s. split; [exact S1|]. unfold split. now rewrite splitBy_length.
  - intros HI%reachable_Inv.
    split; [intros _; apply domOK_wordSpans, (inv_dom _ HI)|].
    intros <- _ Hi Ha.
    destruct (step_activation c e HI Hg Hi Ha) as (s & S1 & S2).
    exists s. split; [exact S1|]. unfold split. now rewrite splitBy_length.
Qed.

Lemma C1_witness :
  let lay := exampleLayout 300 100 in
  degenerate (containerRect lay) = false /\
  join (split "Alpha  Beta") = "Alpha  Beta" /\
  length (split "Alpha  Beta") = 3 /\
  whitespace_tokens "Alpha Beta Gamma" = split "Alpha Beta Gamma" /\
  plainProps (props (step clickComp Click)) = true /\
  parseHTML (newHTML toLowerCase (props clickComp)) = Some (textDom clickComp) /\
  tokenBodyCount (step clickComp Click) = length (split "Alpha Beta Gamma").
Proof.
  intros lay.
  destruct (C1_one_body_per_space_separated_piece
              "Alpha  Beta" (exampleHost "Alpha Beta Gamma" "click") lay
              exampleRandom clickComp Click eq_refl)
    as ((J & _ & L) & _ & _ & _ & R).
  destruct (C1_one_body_per_space_separated_piece
              "Alpha Beta Gamma" (exampleHost "Alpha Beta Gamma" "click") lay
              exampleRandom clickComp Click eq_refl)
    as (_ & W & P & _ & _).
  destruct (R (reach_mount _ _ _)) as [_ A].
  destruct (A eq_refl eq_refl eq_refl eq_refl) as (s & S1 & S2).
  split; [reflexivity|]. split; [exact J|]. split; [exact L|].
  split; [exact (W eq_refl eq_refl)|]. split; [reflexivity|].
  split; [exact (proj1 (P eq_refl toLowerCase))|].
  unfold tokenBodyCount. now rewrite S1, S2.
Defined.

(** * Further properties of the code *)

(** ** Joining then splitting ([App.js] line 17, [FallingText.jsx] line 36) *)

Lemma splitBy_app_sep (sep : ascii -> bool) (a b : string) (c : ascii) :
  sep c = true ->
  splitBy sep (a ++ String c b) = (splitBy sep a ++ splitBy sep b)%list.
Proof.
  intros Hc. induction a as [|x a IH]; cbn [append splitBy].
  - now rewrite Hc.
  - rewrite IH. destruct (sep x); [reflexivity|].
    pose proof (splitBy_nonempty sep a) as Hne.
    destruct (splitBy sep a) as [|w ws]; [congruence|reflexivity].
Qed.

Lemma splitBy_nosep (sep : ascii -> bool) (w : string) :
  countChars sep w = 0 -> splitBy sep w = [w].
Proof.
  induction w as [|x w IH]; cbn [countChars splitBy]; [reflexivity|].
  destruct (sep x); [discriminate|]. cbn [Nat.add]. intros H.
  now rewrite (IH H).
Qed.

Lemma split_join_cons (w : string) (ws : list string) :
  split (join (w :: ws)) = flat_map split (w :: ws).
Proof.
  revert w. induction ws as [|w' ws IH]; intros w.
  - cbn. now rewrite app_nil_r.
  - unfold join. rewrite concat_cons_cons by discriminate.
    change (" " ++ String.concat " " (w' :: ws))
      with (String " "%char (join (w' :: ws))).
    unfold split at 1. rewrite splitBy_app_sep by reflexivity.
    fold (split w) (split (join (w' :: ws))). rewrite IH. reflexivity.
Qed.

Lemma flat_map_split_spaceFree (ws : list string) :
  forallb spaceFree ws = true -> flat_map split ws = ws.
Proof.
  induction ws as [|w ws IH]; cbn [forallb flat_map]; [reflexivity|].
  intros [Hw Hs]%andb_true_iff. apply Nat.eqb_eq in Hw.
  unfold split at 1. rewrite (splitBy_nosep _ _ Hw), (IH Hs). reflexivity.
Qed.

(** X13: splitting a text made by joining words with single spaces gives
    the pieces of each word, in order; when no word contains a space it
    gives the words back.  The empty word list is the exception: it joins to
    the empty text, which splits into one empty piece. *)
Theorem split_join_roundtrip :
  forall ws : list string,
    ws <> [] ->
    split (join ws) = flat_map split ws /\
    (forallb spaceFree ws = true -> split (join ws) = ws) /\
    split (join []) = [EmptyString].
Proof.
  intros [|w ws] H; [congruence|].
  split; [apply split_join_cons|]. split; [|reflexivity].
  intros Hs. rewrite split_join_cons. now apply flat_map_split_spaceFree.
Qed.

Lemma split_join_roundtrip_witness :
  appWords <> [] /\
  length (split (join appWords)) = 20 /\
  split (join ["Marketing"; "SEO"; "PPC"]) = ["Marketing"; "SEO"; "PPC"].
Proof.
  assert (H : appWords <> []) by discriminate.
  split; [exact H|]. split.
  - rewrite (proj1 (split_join_roundtrip appWords H)). reflexivity.
  - assert (H3 : ["Marketing"; "SEO"; "PPC"] <> []) by discriminate.
    apply (proj1 (proj2 (split_join_roundtrip _ H3))). reflexivity.
Defined.

(** ** Highlight entries and tokens *)

Lemma lowerChar_isSpace (c : ascii) : isSpace (lowerChar c) = isSpace c.
Proof.
  destruct c as [[] [] [] [] [] [] [] []]; reflexivity.
Qed.

Lemma toLowerCase_spaces (s : string) :
  countChars isSpace (toLowerCase s) = countChars isSpace s.
Proof.
  induction s as [|c s IH]; cbn [toLowerCase countChars]; [reflexivity|].
  now rewrite lowerChar_isSpace, IH.
Qed.

Lemma split_pieces_spaceFree (t w : string) :
  In w (split t) -> countChars isSpace w = 0.
Proof.
  intros H. pose proof (splitBy_pieces isSpace t) as F.
  rewrite Forall_forall in F. now apply F.
Qed.

(** X14: a highlight entry that contains a space never matches: for every
    token of every text, the emphasis test gives the same answer when the
    entries containing a space are dropped from the list.  Holds for any
    case mapping that keeps the number of spaces. *)
Theorem entries_with_spaces_never_match :
  forall (lower : string -> string) (hws : list string) (t w : string),
    (forall s, countChars isSpace (lower s) = countChars isSpace s) ->
    In w (split t) ->
    isHighlighted lower hws w = isHighlighted lower (filter spaceFree hws) w.
Proof.
  intros lower hws t w Hl Hw%split_pieces_spaceFree.
  unfold isHighlighted. induction hws as [|hw hws IH]; [reflexivity|].
  cbn [existsb filter]. rewrite IH.
  destruct (spaceFree hw) eqn:E; [reflexivity|].
  destruct (String.eqb_spec (lower w) (lower hw)) as [E'|E']; [|reflexivity].
  exfalso. unfold spaceFree in E. apply Nat.eqb_neq in E. apply E.
  now rewrite <- (Hl hw), <- E', Hl.
Qed.

Lemma entries_with_spaces_never_match_witness :
  (forall s, countChars isSpace (toLowerCase s) = countChars isSpace s) /\
  In "Development" (split (join appWords)) /\
  isHighlighted toLowerCase appWords "Development" = false /\
  isHighlighted toLowerCase appWords "seo" = true.
Proof.
  assert (Hin : In "Development" (split (join appWords)))
    by (vm_compute; tauto).
  assert (Hin' : In "seo" (split "seo")) by (now left).
  split; [exact toLowerCase_spaces|]. split; [exact Hin|]. split.
  - rewrite (entries_with_spaces_never_match toLowerCase appWords
               (join appWords) "Development" toLowerCase_spaces Hin).
    reflexivity.
  - rewrite (entries_with_spaces_never_match toLowerCase appWords
               "seo" "seo" toLowerCase_spaces Hin').
    reflexivity.
Defined.



(** ** The highlight class on a span *)




(** ** Where the word bodies start (lines 135-159) *)





(** ** Activation never goes back *)

Lemma step_hooks_le c e : hooks_le (hooks c) (hooks (step c e)).
Proof.
  destruct e as [h same| | |entry more|lay]; cbn [step].
  - apply (rerender_hooks_le 2 _ _ (withHost _ c)).
  - destruct (String.eqb _ _); [|apply hooks_le_refl]. unfold handleTrigger.
    destruct (_ && _); [|apply hooks_le_refl].
    eapply hooks_le_trans; [apply hooks_le_start|apply setState_frame].
  - destruct (String.eqb _ _); [|apply hooks_le_refl]. unfold handleTrigger.
    destruct (_ && _); [|apply hooks_le_refl].
    eapply hooks_le_trans; [apply hooks_le_start|apply setState_frame].
  - destruct (observing c); [|apply hooks_le_refl]. unfold observerCallback.
    destruct (isIntersecting entry); [|apply hooks_le_refl].
    eapply hooks_le_trans; [|apply setState_frame].
    apply (hooks_le_start (hooks c)).
  - apply hooks_le_refl.
Qed.

Lemma run_hooks_le es : forall c, hooks_le (hooks c) (hooks (run c es)).
Proof.
  induction es as [|e es IH]; intros c; [apply hooks_le_refl|].
  cbn [run fold_left]. eapply hooks_le_trans; [apply step_hooks_le|apply IH].
Qed.

(** X4: Active is terminal for a mounted instance: no sequence of host
    re-renders, pointer events, intersection notifications or layout
    changes takes an active instance back to Idle. *)
Theorem active_is_terminal :
  forall (c : Comp) (es : list Event),
    activation c = Active -> activation (run c es) = Active.
Proof.
  intros c es Ha%activation_Active. apply activation_Active.
  now apply (run_hooks_le es c).
Qed.

Lemma active_is_terminal_witness :
  activation autoComp = Active /\
  activation (run autoComp
                [Click; Render (exampleHost "Gamma" "click") false;
                 Relayout (exampleLayout 0 0); MouseOver]) = Active.
Proof.
  split; [reflexivity|]. now apply active_is_terminal.
Defined.

(** ** Events nothing listens to *)

Lemma withLayout_withLayout l l' c :
  withLayout l (withLayout l' c) = withLayout l c.
Proof. reflexivity. Qed.

Lemma withLayout_same c : withLayout (layout c) c = c.
Proof. now destruct c. Qed.

(** X3: on an instance whose trigger is neither [click] nor [hover] and
    which is not observing, clicks, pointer-overs and intersection
    notifications change nothing, and layout changes change the layout
    only; so, short of a host re-render, such an instance keeps its
    activation state, its session and its log for ever. *)
Theorem unbound_events_change_nothing :
  forall (c : Comp) (es : list Event),
    trigger (props c) <> "click" -> trigger (props c) <> "hover" ->
    observing c = false ->
    forallb (fun e => negb (isHostRender e)) es = true ->
    run c es = withLayout (layout (run c es)) c.
Proof.
  intros c es Hc%String.eqb_neq Hh%String.eqb_neq Ho.
  assert (G : forall l, forallb (fun e => negb (isHostRender e)) es = true ->
                        run (withLayout l c) es =
                        withLayout (layout (run (withLayout l c) es)) c).
  { induction es as [|e es IH]; intros l Hes.
    - reflexivity.
    - cbn [forallb] in Hes. apply andb_true_iff in Hes as [He Hes].
      cbn [run fold_left].
      destruct e as [h same| | |entry more|lay]; cbn [step]; try discriminate.
      + cbn [withLayout props]. rewrite Hc. now apply IH.
      + cbn [withLayout props]. rewrite Hh. now apply IH.
      + replace (observing (withLayout l c)) with false by (symmetry; exact Ho).
        now apply IH.
      + rewrite withLayout_withLayout. now apply IH. }
  intros Hes. rewrite <- (withLayout_same c) at 1 2. now apply G.
Qed.

Lemma unbound_events_change_nothing_witness :
  let c := mount (exampleHost "Alpha Beta Gamma" "focus")
                 (exampleLayout 300 100) exampleRandom in
  let es := [Click; MouseOver;
             Intersection {| isIntersecting := true; intersectionRatio := 1 |} [];
             Relayout (exampleLayout 200 50); Click] in
  trigger (props c) <> "click" /\ observing c = false /\
  activation (run c es) = Idle /\ session (run c es) = None /\
  log (run c es) = log c.
Proof.
  intros c es.
  assert (H1 : trigger (props c) <> "click") by discriminate.
  assert (H2 : trigger (props c) <> "hover") by discriminate.
  pose proof (unbound_events_change_nothing c es H1 H2 eq_refl eq_refl) as E.
  split; [exact H1|]. split; [reflexivity|].
  rewrite E. cbn [withLayout hooks session log activation]. auto.
Defined.

(** ** An aborted start is not retried *)

Lemma step_no_retry c e :
  isHostRender e = false ->
  effectStarted (hooks c) = true -> session c = None ->
  effectStarted (hooks (step c e)) = true /\ session (step c e) = None /\
  creations (step c e) = creations c.
Proof.
  intros He Ha Hs.
  destruct e as [h same| | |entry more|lay]; cbn [step]; try discriminate.
  - destruct (String.eqb _ _); rewrite ?(handleTrigger_active c Ha); auto.
  - destruct (String.eqb _ _); rewrite ?(handleTrigger_active c Ha); auto.
  - destruct (observing c); [|auto]. unfold observerCallback.
    destruct (isIntersecting entry); [|auto].
    unfold setState. cbn [withObserver hooks].
    replace (hooks_eqb _ (hooks c)) with true.
    + cbn [withObserver hooks session]. repeat split; trivial.
      unfold creations. cbn [withObserver log].
      rewrite filter_app. cbn. apply app_nil_r.
    + symmetry. apply hooks_eqb_eq. destruct (hooks c) as [es ii].
      cbn in Ha |- *. now subst es.
  - auto.
Qed.

(** X5: once an activation has found the container degenerate (the
    instance is Active but has no session), no click, pointer-over,
    intersection notification or layout change starts the session later,
    not even after the layout has become usable: only a host re-render can. *)
Theorem aborted_start_not_retried :
  forall (c : Comp) (es : list Event),
    activation c = Active -> session c = None ->
    forallb (fun e => negb (isHostRender e)) es = true ->
    session (run c es) = None /\ creations (run c es) = creations c /\
    activation (run c es) = Active.
Proof.
  intros c es Ha%activation_Active Hs. revert c Ha Hs.
  induction es as [|e es IH]; intros c Ha Hs Hes.
  - repeat split; trivial. now apply activation_Active.
  - cbn [forallb] in Hes. apply andb_true_iff in Hes as [He Hes].
    apply negb_true_iff in He.
    destruct (step_no_retry c e He Ha Hs) as (A1 & A2 & A3).
    cbn [run fold_left]. destruct (IH (step c e) A1 A2 Hes) as (B1 & B2 & B3).
    repeat split; trivial. unfold run in B2. congruence.
Qed.

Lemma aborted_start_not_retried_witness :
  let c := mount (exampleHost "Alpha Beta Gamma" "click")
                 (exampleLayout 300 0) exampleRandom in
  let c1 := step c Click in
  let es := [Relayout (exampleLayout 300 100); Click; MouseOver; Click] in
  activation c1 = Active /\ session c1 = None /\
  degenerate (containerRect (layout (run c1 es))) = false /\
  session (run c1 es) = None /\ creations (run c1 es) = [].
Proof.
  intros c c1 es.
  destruct (aborted_start_not_retried c1 es eq_refl eq_refl eq_refl)
    as (H1 & H2 & _).
  split; [reflexivity|]. split; [reflexivity|]. split; [reflexivity|].
  split; [exact H1|]. rewrite H2. reflexivity.
Defined.

(** ** A host re-render with nothing new *)

Lemma Qeq_bool_refl (q : Q) : Qeq_bool q q = true.
Proof. apply Qeq_bool_iff. reflexivity. Qed.

Lemma physicsDepsChanged_same c :
  physicsDepsChanged (Some (props c, hooks c)) c = false.
Proof.
  unfold physicsDepsChanged.
  now rewrite !eqb_reflx, !Qeq_bool_refl, String.eqb_refl.
Qed.

Lemma withHost_same h c :
  FallingText_props h = props c -> suppliesWords h = wordsStable c ->
  withHost h c = c.
Proof. intros E W. unfold withHost. rewrite E, W. now destruct c. Qed.

Lemma rerender_same fuel c :
  rerender fuel (Some (props c, hooks c)) true c = c.
Proof.
  rewrite rerender_unfold.
  destruct (depsUnchanged_state (hooks c) c eq_refl) as [D1 D2].
  assert (P : pendingOf (Some (props c, hooks c)) true c = hooks c).
  { unfold pendingOf. rewrite D1, D2. cbn [andb]. rewrite !orb_false_r.
    apply hooks_eta. }
  rewrite P, hooks_eqb_refl.
  unfold committed, afterTrigger, afterText.
  now rewrite D1, D2, physicsDepsChanged_same.
Qed.

(** X6: a host re-render that passes the same props, the same highlight
    array included, runs no effect and no cleanup: the instance, its DOM,
    its session and its log are exactly as before.  The host has to supply
    the highlight array, in this render and in the one before: when it
    leaves it out, the default of the parameter list is a new array in
    every render. *)
Theorem rerender_with_same_props_is_noop :
  forall (c : Comp) (h : HostProps),
    FallingText_props h = props c ->
    suppliesWords h = true -> wordsStable c = true ->
    step c (Render h true) = c.
Proof.
  intros c h E W1 W2. cbn [step]. rewrite W1, W2. cbn [andb].
  rewrite (withHost_same h c E) by congruence.
  apply rerender_same.
Qed.

Lemma rerender_with_same_props_is_noop_witness :
  FallingText_props (exampleHost "Alpha Beta Gamma" "auto") = props autoComp /\
  suppliesWords (exampleHost "Alpha Beta Gamma" "auto") = true /\
  wordsStable autoComp = true /\
  step autoComp (Render (exampleHost "Alpha Beta Gamma" "auto") true) = autoComp.
Proof.
  split; [reflexivity|]. split; [reflexivity|]. split; [reflexivity|].
  now apply rerender_with_same_props_is_noop.
Defined.

(** Without a highlight array from the host the same re-render writes the
    markup again. *)
Example rerender_without_highlight_array :
  let h := {| h_text := Some "Alpha Beta"; h_highlightWords := None;
              h_highlightClass := None; h_trigger := Some "click";
              h_backgroundColor := None; h_wireframes := None;
              h_gravity := None; h_mouseConstraintStiffness := None;
              h_fontSize := None |} in
  let c := mount h (exampleLayout 300 100) exampleRandom in
  FallingText_props h = props c /\
  log (step c (Render h true)) =
    (log c ++ [SetInnerHTML (newHTML toLowerCase (props c))])%list.
Proof. vm_compute. auto. Qed.

(** ** The cleanups held follow the props *)

Lemma session_afterText prev same c :
  session (afterText prev same c) = session c /\
  observer (afterText prev same c) = observer c.
Proof. unfold afterText. now destruct (textDepsChanged _ _ _). Qed.

Lemma session_triggerCleanup c : session (triggerCleanup c) = session c.
Proof. unfold triggerCleanup. now destruct (observer c). Qed.

Lemma session_triggerEffect pending c :
  session (fst (triggerEffect pending c)) = session c.
Proof.
  unfold triggerEffect.
  destruct (negb _); [reflexivity|].
  destruct (String.eqb _ "auto"); [reflexivity|].
  now destruct (String.eqb _ "scroll").
Qed.

Lemma session_afterTrigger prev same c :
  session (afterTrigger prev same c) = session c.
Proof.
  unfold afterTrigger. destruct (triggerDepsChanged _ _).
  - now rewrite session_triggerEffect, session_triggerCleanup,
      (proj1 (session_afterText prev same c)).
  - apply session_afterText.
Qed.

Lemma canvasDom_afterTrigger prev same c :
  canvasDom (afterTrigger prev same c) = canvasDom c.
Proof.
  unfold afterTrigger, afterText, triggerEffect, triggerCleanup.
  destruct (textDepsChanged _ _ _), (triggerDepsChanged _ _); cbn [fst];
    repeat match goal with
           | |- context [match ?x with _ => _ end] => destruct x; cbn [fst]
           end; reflexivity.
Qed.

Lemma constraintsOf_bodies {A} (f : A -> Body) (l : list A) :
  constraintsOf (map (fun a => W_body (f a)) l) = [].
Proof. induction l as [|a l IH]; [reflexivity|exact IH]. Qed.

Lemma constraintsOf_buildSession c :
  constraintsOf (world (buildSession c)) = [mouseConstraintStiffness (props c)].
Proof.
  unfold buildSession; cbn [world]. unfold constraintsOf.
  rewrite flat_map_app. fold constraintsOf.
  rewrite (constraintsOf_bodies (fun b => b)). cbn [flat_map app].
  fold constraintsOf. now rewrite (constraintsOf_bodies snd).
Qed.

Lemma observer_afterTrigger prev same c o :
  tunedBefore prev c ->
  observer (afterTrigger prev same c) = Some o ->
  trigger (props c) = "scroll" /\ threshold o = 0.1%Q.
Proof.
  intros Hpre. unfold afterTrigger.
  rewrite (triggerDepsChanged_frame prev c _ (sameFrame_afterText prev same c)).
  destruct (triggerDepsChanged prev c) eqn:Et.
  - unfold triggerEffect.
    pose proof (sameFrame_trans _ _ _ (sameFrame_afterText prev same c)
                  (sameFrame_triggerCleanup (afterText prev same c)))
      as [Fp Fh _ _].
    rewrite Fp, Fh.
    destruct (negb _); cbn [fst];
      [rewrite triggerCleanup_observer; discriminate|].
    destruct (String.eqb _ "auto"); cbn [fst];
      [rewrite triggerCleanup_observer; discriminate|].
    destruct (String.eqb _ "scroll") eqn:Es; cbn [fst];
      [|rewrite triggerCleanup_observer; discriminate].
    cbn [withObserver observer]. intros [= <-].
    apply String.eqb_eq in Es. now split.
  - rewrite (proj2 (session_afterText prev same c)). intros Ho.
    destruct prev as [[p h]|]; [|discriminate].
    cbn [tunedBefore] in Hpre. destruct (tn_observer _ _ Hpre o Ho) as [T1 T2].
    split; [|exact T2]. unfold triggerDepsChanged in Et.
    apply orb_false_iff in Et as [Et _]. apply negb_false_iff in Et.
    apply String.eqb_eq in Et. congruence.
Qed.

Lemma committed_Tuned prev same c :
  tunedBefore prev c -> Tuned (props c) (committed prev same c).
Proof.
  intros Hpre. unfold committed. cbn zeta.
  pose proof (sameFrame_afterTrigger prev same c) as [Fp Fh Fl Fr].
  destruct (physicsDepsChanged prev c) eqn:Ep.
  - pose proof (sameFrame_teardown true (afterTrigger prev same c))
      as [Gp Gh Gl Gr].
    split.
    + intros s Hs. unfold physicsEffect in Hs.
      destruct (negb _ || negb _); [rewrite teardown_session in Hs; discriminate|].
      destruct (degenerate _); [rewrite teardown_session in Hs; discriminate|].
      cbn [session] in Hs. injection Hs as <-.
      rewrite constraintsOf_buildSession. cbn [buildSession engineGravity].
      rewrite Gp, Fp. split; [reflexivity|].
      eexists. split; [reflexivity|reflexivity].
    + intros o. rewrite observer_physicsEffect, observer_teardown.
      now apply observer_afterTrigger.
  - split.
    + intros s. rewrite session_afterTrigger. intros Hs.
      destruct prev as [[p h]|]; [|discriminate].
      cbn [tunedBefore] in Hpre.
      destruct (tn_session _ _ Hpre s Hs) as (T1 & k & T2 & T3).
      unfold physicsDepsChanged in Ep.
      repeat (apply orb_false_iff in Ep as [Ep ?]).
      repeat match goal with
             | H : negb _ = false |- _ => apply negb_false_iff in H
             end.
      split.
      * rewrite T1. now apply Qeq_bool_iff.
      * exists k. split; [exact T2|]. rewrite T3. now apply Qeq_bool_iff.
    + intros o. now apply observer_afterTrigger.
Qed.

Lemma Tuned_withHooks p h c : Tuned p c -> Tuned p (withHooks h c).
Proof. intros []; now split. Qed.

Lemma rerender_Tuned fuel :
  forall prev same c,
    tunedBefore prev c -> Tuned (props c) (rerender fuel prev same c).
Proof.
  induction fuel as [|fuel IH]; intros prev same c Hpre; rewrite rerender_unfold;
    pose proof (committed_Tuned prev same c Hpre) as T.
  - now destruct (hooks_eqb _ _).
  - destruct (hooks_eqb _ _); trivial.
    pose proof (IH (Some (props c, hooks c)) (wordsStable c)
                   (withHooks (pendingOf prev same c) (committed prev same c))
                   (Tuned_withHooks _ _ _ T)) as T'.
    cbn [withHooks props] in T'.
    now rewrite (fr_props _ _ (sameFrame_committed prev same c)) in T'.
Qed.

Lemma setState_Tuned h c : Tuned (props c) c -> Tuned (props c) (setState h c).
Proof.
  intros T. unfold setState. destruct (hooks_eqb _ _); trivial.
  apply (rerender_Tuned 2 (Some (props c, hooks c)) (wordsStable c) (withHooks h c)).
  now apply Tuned_withHooks.
Qed.

Lemma reachable_Tuned c : reachable c -> Tuned (props c) c.
Proof.
  induction 1 as [h lay rnd|c e _ IH].
  - rewrite mount_eq. unfold renderLoop.
    rewrite (proj1 (rerender_frame 2 None true (unmounted h lay rnd))).
    apply (rerender_Tuned 2 None true (unmounted h lay rnd)). now split.
  - destruct e as [h same| | |entry more|lay]; cbn [step].
    + rewrite (proj1 (rerender_frame 2 _ _ (withHost h c))).
      apply (rerender_Tuned 2 _ _ (withHost h c)).
      cbn [tunedBefore]. destruct IH; now split.
    + destruct (String.eqb _ _); trivial. unfold handleTrigger.
      destruct (_ && _); trivial.
      rewrite (proj1 (setState_frame _ c)). now apply setState_Tuned.
    + destruct (String.eqb _ _); trivial. unfold handleTrigger.
      destruct (_ && _); trivial.
      rewrite (proj1 (setState_frame _ c)). now apply setState_Tuned.
    + destruct (observing c); trivial. unfold observerCallback.
      destruct (isIntersecting entry); trivial.
      set (c1 := withObserver _ _ c).
      rewrite (proj1 (setState_frame _ c1)). apply setState_Tuned.
      destruct IH as [T1 T2]. split; [exact T1|].
      intros o. cbn [c1 withObserver observer props].
      destruct (observer c) as [o0|]; [|discriminate].
      cbn [option_map]. intros [= <-]. cbn [threshold].
      now apply T2.
    + destruct IH; now split.
Qed.

(** X9: in every reachable instance a live session was built under the
    current gravity and the current pointer stiffness: a change of either
    prop never leaves a session of the old value running. *)
Theorem live_session_follows_props :
  forall (c : Comp) (s : Session),
    reachable c -> session c = Some s ->
    (engineGravity s == gravity (props c))%Q /\
    exists k, constraintsOf (world s) = [k] /\
              (k == mouseConstraintStiffness (props c))%Q.
Proof.
  intros c s R%reachable_Tuned Hs. now apply (tn_session _ _ R).
Qed.

(** X11: a reachable instance holds an intersection observer only while
    its trigger is [scroll], and that observer was made with threshold 0.1;
    in particular an instance whose trigger was changed away from [scroll]
    observes nothing. *)
Theorem observer_only_under_scroll :
  forall (c : Comp) (o : Observer),
    reachable c -> observer c = Some o ->
    trigger (props c) = "scroll" /\ threshold o = 0.1%Q.
Proof.
  intros c o R%reachable_Tuned Ho. now apply (tn_observer _ _ R).
Qed.

Lemma live_session_follows_props_witness :
  let c := step autoComp (Render (tunedHost "Alpha Beta Gamma" "auto" 2 0.5) true) in
  reachable c /\
  exists s, session c = Some s /\ (engineGravity s == 2)%Q /\
            constraintsOf (world s) = [0.5%Q].
Proof.
  intros c.
  assert (R : reachable c) by (apply reach_step, reach_mount).
  split; [exact R|]. eexists. split; [reflexivity|].
  destruct (live_session_follows_props c _ R eq_refl) as (G & _).
  split; [exact G|reflexivity].
Defined.

Lemma observer_only_under_scroll_witness :
  reachable scrollComp /\
  exists o, observer scrollComp = Some o /\
            trigger (props scrollComp) = "scroll" /\ threshold o = 0.1%Q.
Proof.
  assert (R : reachable scrollComp) by apply reach_mount.
  split; [exact R|]. eexists. split; [reflexivity|].
  exact (observer_only_under_scroll scrollComp _ R eq_refl).
Defined.

(** ** What mounting does, by trigger *)

Lemma quiet_afterTrigger prev same c : quiet c (afterTrigger prev same c).
Proof.
  unfold afterTrigger. pose proof (quiet_afterText prev same c) as Q1.
  destruct (triggerDepsChanged _ _); trivial.
  eapply quiet_trans; [exact Q1|].
  eapply quiet_trans; [apply quiet_triggerCleanup|apply quiet_triggerEffect].
Qed.

Lemma quiet_committed_idle prev same c :
  effectStarted (hooks c) = false -> quiet c (committed prev same c).
Proof.
  intros He. unfold committed. cbn zeta.
  pose proof (quiet_afterTrigger prev same c) as Q.
  destruct (physicsDepsChanged _ _); trivial.
  eapply quiet_trans; [exact Q|].
  eapply quiet_trans; [apply (quiet_teardown true)|].
  rewrite physicsEffect_guard; [apply quiet_refl|].
  pose proof (sameFrame_trans _ _ _ (sameFrame_afterTrigger prev same c)
                (sameFrame_teardown true (afterTrigger prev same c)))
    as [_ Fh _ _].
  now rewrite Fh, He.
Qed.

(** Under a trigger other than [auto], the renders that follow a commit of
    an idle instance create nothing. *)
Lemma quiet_rerender_idle fuel :
  forall prev same c,
    String.eqb (trigger (props c)) "auto" = false ->
    effectStarted (hooks c) = false ->
    quiet c (rerender fuel prev same c).
Proof.
  induction fuel as [|fuel IH]; intros prev same c Ht He; rewrite rerender_unfold;
    pose proof (quiet_committed_idle prev same c He) as Q.
  - now destruct (hooks_eqb _ _).
  - destruct (hooks_eqb _ _); trivial.
    pose proof (sameFrame_committed prev same c) as [Fp Fh _ _].
    eapply quiet_trans; [exact Q|].
    eapply quiet_trans; [apply (quiet_withHooks (pendingOf prev same c))|].
    apply IH; cbn [withHooks props hooks pendingOf effectStarted].
    + now rewrite Fp.
    + now rewrite He, Ht, andb_false_r.
Qed.

(** X2: mounted with any trigger other than [auto], the instance has
    written its token markup and is initialized but Idle: it has no session,
    no canvas, and has made no resource-creation call, whatever the layout.
    When the text and the highlight class carry no markup characters, the
    text target holds one span per piece of the text.  The instance has an
    intersection observer (threshold 0.1, connected) exactly when the
    trigger is [scroll]. *)
Theorem mount_without_auto_is_idle :
  forall (h : HostProps) (lay : Layout) (rnd : nat -> Q),
    trigger (FallingText_props h) <> "auto" ->
    let c := mount h lay rnd in
    activation c = Idle /\ isInitialized (hooks c) = true /\
    session c = None /\ creations c = [] /\ canvasDom c = [] /\
    hasMarkup (log c) = true /\
    (plainProps (FallingText_props h) = true ->
     map textContent (textDom c) = split (text (FallingText_props h))) /\
    observer c =
      (if String.eqb (trigger (FallingText_props h)) "scroll"
       then Some {| threshold := 0.1; connected := true |} else None).
Proof.
  intros h lay rnd Ht%String.eqb_neq. cbn zeta.
  pose proof (reachable_Inv _ (reach_mount h lay rnd)) as [Hs Hd Hi].
  assert (Hq : quiet (unmounted h lay rnd) (mount h lay rnd)).
  { rewrite mount_eq. now apply (quiet_rerender_idle 2 None true). }
  assert (Hn : session (mount h lay rnd) = None)
    by now apply (q_session _ _ Hq).
  split.
  { apply activation_Idle. rewrite mount_eq.
    now apply (rerender_stays_idle 2 None true (unmounted h lay rnd)). }
  split; [exact Hi|]. split; [exact Hn|].
  split; [now rewrite (q_creations _ _ Hq)|].
  split; [rewrite (snd_canvas _ Hs); now rewrite Hn|].
  split; [now apply (snd_markup _ Hs)|].
  split.
  { intros _. rewrite (proj2 (domOK_wordSpans _ Hd)).
    now rewrite (proj1 (mount_frame h lay rnd)). }
  destruct (String.eqb_spec (trigger (FallingText_props h)) "scroll") as [E|E].
  - now apply mount_scroll.
  - destruct (observer (mount h lay rnd)) as [o|] eqn:Eo; [|reflexivity].
    destruct (tn_observer _ _ (reachable_Tuned _ (reach_mount h lay rnd)) o Eo)
      as [T _].
    rewrite (proj1 (mount_frame h lay rnd)) in T. contradiction.
Qed.

Lemma mount_without_auto_is_idle_witness :
  let h := appHost appWords in
  trigger (FallingText_props h) <> "auto" /\
  plainProps (FallingText_props h) = true /\
  activation (mount h (exampleLayout 300 100) exampleRandom) = Idle /\
  length (textDom (mount h (exampleLayout 300 100) exampleRandom)) = 20 /\
  observer (mount h (exampleLayout 300 100) exampleRandom) = None.
Proof.
  intros h.
  assert (Ht : trigger (FallingText_props h) <> "auto") by discriminate.
  destruct (mount_without_auto_is_idle h (exampleLayout 300 100) exampleRandom Ht)
    as (A & _ & _ & _ & _ & _ & D & O).
  split; [exact Ht|]. split; [reflexivity|]. split; [exact A|].
  split; [|exact O].
  rewrite <- (length_map textContent), (D eq_refl). reflexivity.
Defined.

Lemma mount_auto_active h lay rnd :
  trigger (FallingText_props h) = "auto" ->
  effectStarted (hooks (mount h lay rnd)) = true.
Proof.
  intros Ht. rewrite mount_second_commit.
  set (c1 := initialized h lay rnd).
  change (FallingText_props h) with (props c1) in Ht |- *.
  assert (Hh : hooks c1 = {| effectStarted := false; isInitialized := true |})
    by reflexivity.
  clearbody c1.
  rewrite rerender_unfold.
  assert (P : pendingOf (Some (props c1,
                               {| effectStarted := false; isInitialized := false |}))
                        (suppliesWords h) c1
              = {| effectStarted := true; isInitialized := true |}).
  { unfold pendingOf, triggerDepsChanged.
    rewrite Hh, Ht, String.eqb_refl. reflexivity. }
  rewrite P, Hh. cbn [hooks_eqb effectStarted isInitialized Bool.eqb andb].
  apply (rerender_hooks_le 0 _ _ (withHooks _ _)). reflexivity.
Qed.

(** X1: mounted with trigger [auto] (the default), the instance is Active
    at once, with no pointer or intersection event and without an observer;
    under a usable layout it then has its session, which holds one word body
    per piece of the text when the text and the highlight class carry no
    markup characters, and under a degenerate one it is Active without a
    session. *)
Theorem mount_with_auto_is_active :
  forall (h : HostProps) (lay : Layout) (rnd : nat -> Q),
    trigger (FallingText_props h) = "auto" ->
    let c := mount h lay rnd in
    activation c = Active /\ observer c = None /\
    (degenerate (containerRect lay) = false ->
     exists s, session c = Some s /\
               (plainProps (FallingText_props h) = true ->
                length (wordBodies s) =
                length (split (text (FallingText_props h))))) /\
    (degenerate (containerRect lay) = true -> session c = None).
Proof.
  intros h lay rnd Ht. cbn zeta.
  pose proof (mount_auto_active h lay rnd Ht) as Ha%activation_Active.
  split; [exact Ha|]. split; [|split].
  - destruct (observer (mount h lay rnd)) as [o|] eqn:Eo; [|reflexivity].
    destruct (tn_observer _ _ (reachable_Tuned _ (reach_mount h lay rnd)) o Eo)
      as [T _].
    rewrite (proj1 (mount_frame h lay rnd)), Ht in T. discriminate.
  - intros Hg. destruct (mount_activation h lay rnd Hg Ha) as (s & S1 & S2).
    exists s. split; [exact S1|]. intros _.
    rewrite S2, (proj1 (mount_frame h lay rnd)). unfold split.
    now rewrite splitBy_length.
  - intros Hg.
    pose proof (quiet_rerender 2 None true (unmounted h lay rnd) Hg) as [_ Q2 _].
    apply Q2. reflexivity.
Qed.

Lemma mount_with_auto_is_active_witness :
  trigger (FallingText_props noProps) = "auto" /\
  plainProps (FallingText_props noProps) = true /\
  activation (mount noProps (exampleLayout 300 100) exampleRandom) = Active /\
  tokenBodyCount (mount noProps (exampleLayout 300 100) exampleRandom) = 1 /\
  session (mount noProps (exampleLayout 300 0) exampleRandom) = None.
Proof.
  destruct (mount_with_auto_is_active noProps (exampleLayout 300 100)
              exampleRandom eq_refl) as (A & _ & B & _).
  destruct (mount_with_auto_is_active noProps (exampleLayout 300 0)
              exampleRandom eq_refl) as (_ & _ & _ & C).
  destruct (B eq_refl) as (s & S1 & S2).
  split; [reflexivity|]. split; [reflexivity|].
  split; [exact A|]. split; [|exact (C eq_refl)].
  unfold tokenBodyCount. now rewrite S1, (S2 eq_refl).
Defined.

(** ** Host re-renders of an active instance *)

Lemma step_render_active c h same :
  effectStarted (hooks c) = true -> isInitialized (hooks c) = true ->
  step c (Render h same) =
  committed (Some (props c, hooks c))
            (same && wordsStable c && suppliesWords h) (withHost h c).
Proof.
  intros He Hi. cbn [step]. unfold renderLoop. rewrite rerender_unfold.
  rewrite pendingOf_full by assumption.
  now rewrite hooks_eqb_refl.
Qed.

Lemma physicsDepsChanged_render c h :
  physicsDepsChanged (Some (props c, hooks c)) (withHost h c) =
  physicsPropsDiffer (props c) (FallingText_props h).
Proof.
  unfold physicsDepsChanged, physicsPropsDiffer.
  cbn [withHost hooks props]. now rewrite !eqb_reflx.
Qed.

(** X7: while the instance is Active, a host re-render that changes none
    of gravity, wireframes, background and stiffness leaves the session
    alone, whatever it does to the text: no body is created or removed, so
    the word bodies remain those of the old text.  The token markup is left
    as it was when the text and the highlight class are unchanged and the
    highlight array is the one of the render before (supplied by the host
    both times); a highlight array changed in place is therefore not picked
    up.  Otherwise the markup is written again, and for a text and a class
    without markup characters the text target then holds one span per piece
    of the new text. *)
Theorem text_change_keeps_session :
  forall (c : Comp) (h : HostProps) (sameWords : bool),
    effectStarted (hooks c) = true -> isInitialized (hooks c) = true ->
    physicsPropsDiffer (props c) (FallingText_props h) = false ->
    let p := FallingText_props h in
    let c' := step c (Render h sameWords) in
    let rewritten :=
      negb (String.eqb (text (props c)) (text p)) ||
      negb (sameWords && wordsStable c && suppliesWords h) ||
      negb (String.eqb (highlightClass (props c)) (highlightClass p)) in
    session c' = session c /\ creations c' = creations c /\
    canvasDom c' = canvasDom c /\
    (rewritten = false -> textDom c' = textDom c) /\
    (rewritten = true -> plainProps p = true ->
     map textContent (textDom c') = split (text p)).
Proof.
  intros c h same He Hi Hd. cbn zeta.
  rewrite (step_render_active c h same He Hi).
  unfold committed. cbn zeta. rewrite physicsDepsChanged_render, Hd.
  set (c0 := withHost h c). set (st := same && wordsStable c && suppliesWords h).
  split; [apply (session_afterTrigger _ st c0)|].
  split; [apply (q_creations _ _ (quiet_afterTrigger _ st c0))|].
  split; [apply (canvasDom_afterTrigger _ st c0)|].
  rewrite textDom_afterTrigger. unfold afterText, textDepsChanged.
  cbn [c0 withHost props].
  split; intros ->; [reflexivity|]. intros _.
  cbn [textEffect fst textDom]. unfold renderWords.
  rewrite map_map. cbn [wordSpan textContent]. apply map_id.
Qed.

Lemma text_change_keeps_session_witness :
  let h := exampleHost "One" "auto" in
  let c' := step autoComp (Render h true) in
  physicsPropsDiffer (props autoComp) (FallingText_props h) = false /\
  plainProps (FallingText_props h) = true /\
  session c' = session autoComp /\
  map textContent (textDom c') = ["One"] /\ tokenBodyCount c' = 3.
Proof.
  intros h c'.
  destruct (text_change_keeps_session autoComp h true eq_refl eq_refl eq_refl)
    as (S & _ & _ & _ & D).
  split; [reflexivity|]. split; [reflexivity|]. split; [exact S|]. split.
  - exact (D eq_refl eq_refl).
  - unfold tokenBodyCount. fold c' in S. now rewrite S.
Defined.

(** X8: while the instance is Active and the layout is usable, a host
    re-render that changes gravity, wireframes, background or stiffness
    tears the session down and builds a new one from the new props: the new
    session has the new gravity and stiffness and a single canvas, and
    nothing is thrown; when the text and the highlight class carry no markup
    characters it has one word body per piece of the current text.  This
    also starts the session that an earlier degenerate layout had
    prevented. *)
Theorem config_change_rebuilds_session :
  forall (c : Comp) (h : HostProps) (sameWords : bool),
    reachable c ->
    effectStarted (hooks c) = true ->
    degenerate (containerRect (layout c)) = false ->
    physicsPropsDiffer (props c) (FallingText_props h) = true ->
    let p := FallingText_props h in
    let c' := step c (Render h sameWords) in
    exists s,
      session c' = Some s /\
      engineGravity s = gravity p /\
      constraintsOf (world s) = [mouseConstraintStiffness p] /\
      (plainProps p = true ->
       length (wordBodies s) = length (split (text p))) /\
      canvasDom c' = [renderCanvas s] /\ thrown c' = [].
Proof.
  intros c h same [Hs Hd Hi]%reachable_Inv He Hg Hp. cbn zeta.
  rewrite (step_render_active c h same He Hi).
  set (c0 := withHost h c).
  set (st := same && wordsStable c && suppliesWords h).
  assert (Hs0 : Sound c0) by now apply Sound_withHost.
  assert (Hd0 : domOK c0 \/
                textDepsChanged (Some (props c, hooks c)) st c0 = true).
  { cbn [textDepsChanged c0 withHost props].
    destruct (String.eqb (text (props c)) (text (FallingText_props h))) eqn:E;
      [|now right].
    left. apply String.eqb_eq in E. destruct Hd as (hws & hc & D).
    exists hws, hc. cbn [c0 withHost textDom props]. now rewrite <- E. }
  pose proof (Sound_committed (Some (props c, hooks c)) st c0 Hs0) as Hs'.
  assert (Hp' : physicsDepsChanged (Some (props c, hooks c)) c0 = true)
    by (unfold c0; now rewrite physicsDepsChanged_render).
  unfold committed in Hs' |- *. cbn zeta in Hs' |- *.
  rewrite Hp' in Hs' |- *.
  set (c2 := afterTrigger (Some (props c, hooks c)) st c0) in *.
  pose proof (sameFrame_trans _ _ _
                (sameFrame_afterTrigger (Some (props c, hooks c)) st c0)
                (sameFrame_teardown true c2)) as [Fp Fh Fl Fr].
  fold c2 in Fp, Fh, Fl, Fr.
  destruct (physicsEffect_builds (teardown true c2)) as (B1 & _ & _);
    try (rewrite ?Fh, ?Fl; assumption).
  exists (buildSession (teardown true c2)).
  split; [exact B1|].
  split; [cbn [buildSession engineGravity]; now rewrite Fp|].
  split; [rewrite constraintsOf_buildSession; now rewrite Fp|].
  split.
  - intros _. rewrite buildSession_tokens.
    + rewrite Fp. cbn [c0 withHost props]. unfold split.
      now rewrite splitBy_length.
    + apply (domOK_frame (afterText (Some (props c, hooks c)) st c0)).
      * rewrite Fp.
        now rewrite (fr_props _ _ (sameFrame_afterText _ st c0)).
      * unfold c2. now rewrite textDom_teardown, textDom_afterTrigger.
      * now apply domOK_afterText.
  - split; [rewrite (snd_canvas _ Hs'); now rewrite B1|apply (snd_thrown _ Hs')].
Qed.

Lemma config_change_rebuilds_session_witness :
  let c := step (step (mount (exampleHost "Alpha Beta Gamma" "click")
                             (exampleLayout 300 0) exampleRandom) Click)
                (Relayout (exampleLayout 300 100)) in
  let h := tunedHost "Alpha Beta Gamma" "click" 2 0.9 in
  reachable c /\ session c = None /\
  physicsPropsDiffer (props c) (FallingText_props h) = true /\
  plainProps (FallingText_props h) = true /\
  exists s, session (step c (Render h true)) = Some s /\
            engineGravity s = 2%Q /\ length (wordBodies s) = 3.
Proof.
  intros c h.
  assert (R : reachable c) by (do 2 apply reach_step; apply reach_mount).
  destruct (config_change_rebuilds_session c h true R eq_refl eq_refl eq_refl)
    as (s & S1 & S2 & _ & S4 & _).
  split; [exact R|]. split; [reflexivity|]. split; [reflexivity|].
  split; [reflexivity|].
  exists s. split; [exact S1|]. split; [exact S2|exact (S4 eq_refl)].
Defined.

(** ** Stage-wise invariants *)

Lemma stage_triggerCleanup P c : StageClosed P -> P c -> P (triggerCleanup c).
Proof.
  intros SC H. unfold triggerCleanup. destruct (observer c); trivial.
  now apply (sc_observer P SC).
Qed.

Lemma stage_triggerEffect P pending c :
  StageClosed P -> P c -> P (fst (triggerEffect pending c)).
Proof.
  intros SC H. unfold triggerEffect.
  destruct (negb _); trivial.
  destruct (String.eqb _ "auto"); trivial.
  destruct (String.eqb _ "scroll"); trivial.
  now apply (sc_observer P SC).
Qed.

Lemma stage_committed P prev same c :
  StageClosed P -> Sound c -> P c -> P (committed prev same c).
Proof.
  intros SC Hs H. unfold committed. cbn zeta.
  assert (H2 : P (afterTrigger prev same c)).
  { unfold afterTrigger, afterText.
    destruct (textDepsChanged _ _ _).
    - pose proof (sc_text P SC (hooks c) c H) as H1.
      destruct (triggerDepsChanged _ _); trivial.
      now apply stage_triggerEffect, stage_triggerCleanup.
    - destruct (triggerDepsChanged _ _); trivial.
      now apply stage_triggerEffect, stage_triggerCleanup. }
  destruct (physicsDepsChanged _ _); trivial.
  pose proof (Sound_afterTrigger prev same c Hs) as Hs2.
  destruct (Sound_teardown _ Hs2) as [Hs3 Hn].
  apply (sc_physics P SC); trivial. now apply (sc_teardown P SC).
Qed.

Lemma stage_rerender P fuel :
  StageClosed P ->
  forall prev same c, Sound c -> P c -> P (rerender fuel prev same c).
Proof.
  intros SC. induction fuel as [|fuel IH]; intros prev same c Hs H;
    rewrite rerender_unfold;
    pose proof (stage_committed P prev same c SC Hs H) as H'.
  - now destruct (hooks_eqb _ _).
  - destruct (hooks_eqb _ _); trivial.
    apply IH; [now apply Sound_pending|now apply (sc_hooks P SC)].
Qed.

Lemma stage_setState P h c :
  StageClosed P -> Inv c ->
  isInitialized h = true -> hooks_le (hooks c) h ->
  P c -> P (setState h c).
Proof.
  intros SC [Hs Hd Hi] Hh Hl H. unfold setState.
  destruct (hooks_eqb _ _); trivial. unfold renderLoop.
  apply stage_rerender; trivial; [now apply Sound_withHooks|].
  now apply (sc_hooks P SC).
Qed.

Lemma stage_reachable P c : StageClosed P -> reachable c -> P c.
Proof.
  intros SC. induction 1 as [h lay rnd|c e R IH].
  - rewrite mount_eq. unfold renderLoop. apply stage_rerender; trivial.
    + apply Sound_unmounted.
    + apply (sc_unmounted P SC).
  - pose proof (reachable_Inv c R) as HI.
    destruct e as [h same| | |entry more|lay]; cbn [step].
    + unfold renderLoop. apply stage_rerender; trivial.
      * apply Sound_withHost, HI.
      * now apply (sc_host P SC).
    + destruct (String.eqb _ _); trivial. unfold handleTrigger.
      destruct (_ && _); trivial.
      exact (stage_setState P
               {| effectStarted := true; isInitialized := isInitialized (hooks c) |}
               c SC HI (inv_init _ HI) (hooks_le_start (hooks c)) IH).
    + destruct (String.eqb _ _); trivial. unfold handleTrigger.
      destruct (_ && _); trivial.
      exact (stage_setState P
               {| effectStarted := true; isInitialized := isInitialized (hooks c) |}
               c SC HI (inv_init _ HI) (hooks_le_start (hooks c)) IH).
    + destruct (observing c); trivial. unfold observerCallback.
      destruct (isIntersecting entry); trivial.
      set (c1 := withObserver _ _ c).
      assert (HI1 : Inv c1).
      { destruct HI as [Hs Hd Hi]. split.
        - now apply Sound_withObserver.
        - destruct Hd as (hws & hc & D). now exists hws, hc.
        - exact Hi. }
      apply (stage_setState P
               {| effectStarted := true; isInitialized := isInitialized (hooks c1) |}
               c1 SC HI1 (inv_init _ HI1) (hooks_le_start (hooks c1))).
      now apply (sc_observer P SC).
    + now apply (sc_layout P SC).
Qed.

(** ** Engines, runners and renderers are released in turn *)

Lemma alternates_app opens closes (l l' : list Call) :
  forall b,
    alternates opens closes b (l ++ l') =
    match alternates opens closes b l with
    | Some b' => alternates opens closes b' l'
    | None => None
    end.
Proof.
  induction l as [|c l IH]; intros b; cbn [app alternates]; [reflexivity|].
  destruct (opens c); [destruct b; [reflexivity|apply IH]|].
  destruct (closes c); [destruct b; [apply IH|reflexivity]|apply IH].
Qed.

Lemma alternates_neutral opens closes (l : list Call) b :
  forallb (fun c => negb (opens c) && negb (closes c)) l = true ->
  alternates opens closes b l = Some b.
Proof.
  induction l as [|c l IH]; cbn [forallb alternates]; [reflexivity|].
  intros [[Ho Hc]%andb_true_iff Hl]%andb_true_iff.
  apply negb_true_iff in Ho, Hc. rewrite Ho, Hc. now apply IH.
Qed.

Lemma alternates_observer opens closes calls b :
  (forall c, isObserverCall c = true -> opens c = false /\ closes c = false) ->
  forallb isObserverCall calls = true ->
  alternates opens closes b calls = Some b.
Proof.
  intros Hf Hc. apply alternates_neutral.
  rewrite forallb_forall in *. intros c Hin.
  destruct (Hf c (Hc c Hin)) as [-> ->]. reflexivity.
Qed.

Lemma wordCalls_neutral opens closes (wbs : list (nat * Body)) :
  (forall x y w h s, opens (Bodies_rectangle x y w h s) = false /\
                     closes (Bodies_rectangle x y w h s) = false) ->
  (forall x y, opens (Body_setVelocity x y) = false /\
               closes (Body_setVelocity x y) = false) ->
  (forall w, opens (Body_setAngularVelocity w) = false /\
             closes (Body_setAngularVelocity w) = false) ->
  forallb (fun c => negb (opens c) && negb (closes c))
          (flat_map wordCalls wbs) = true.
Proof.
  intros H1 H2 H3. induction wbs as [|wb wbs IH]; [reflexivity|].
  cbn [flat_map]. rewrite forallb_app, IH, andb_true_r.
  unfold wordCalls, bodyCall. cbn [forallb].
  destruct (H1 (b_x (snd wb)) (b_y (snd wb)) (b_width (snd wb))
               (b_height (snd wb)) (isStatic (snd wb))) as [-> ->].
  destruct (H2 (velocity_x (snd wb)) (velocity_y (snd wb))) as [-> ->].
  destruct (H3 (angularVelocity (snd wb))) as [-> ->].
  reflexivity.
Qed.

Lemma alternates_buildCalls opens closes c s :
  (forall x y w h st, opens (Bodies_rectangle x y w h st) = false /\
                      closes (Bodies_rectangle x y w h st) = false) ->
  (forall x y, opens (Body_setVelocity x y) = false /\
               closes (Body_setVelocity x y) = false) ->
  (forall w, opens (Body_setAngularVelocity w) = false /\
             closes (Body_setAngularVelocity w) = false) ->
  forall b,
    alternates opens closes b (buildCalls c s) =
    match alternates opens closes b
            [Engine_create (gravity (props c));
             Render_create (r_width (containerRect (layout c)))
                           (r_height (containerRect (layout c)))
                           (backgroundColor (props c)) (wireframes (props c))]
    with
    | Some b' =>
        alternates opens closes b'
          [Mouse_create;
           MouseConstraint_create (mouseConstraintStiffness (props c));
           World_add (length (world s)); Runner_create; Runner_run; Render_run]
    | None => None
    end.
Proof.
  intros H1 H2 H3 b. unfold buildCalls. cbn zeta.
  rewrite alternates_app.
  destruct (alternates opens closes b _) as [b'|]; [|reflexivity].
  rewrite alternates_app.
  rewrite (alternates_neutral opens closes (map bodyCall _)).
  - rewrite alternates_app.
    now rewrite (alternates_neutral opens closes (flat_map wordCalls _))
      by now apply wordCalls_neutral.
  - unfold boundaries, bodyCall. cbn [map forallb].
    repeat match goal with
           | |- context [opens (Bodies_rectangle ?x ?y ?w ?h ?st)] =>
               destruct (H1 x y w h st) as [-> ->]
           end.
    reflexivity.
Qed.

Lemma Balanced_teardown b c : Sound c -> Balanced c -> Balanced (teardown b c).
Proof.
  intros Hs [B1 B2 B3]. unfold teardown.
  destruct (session c) as [s|] eqn:Es; [|now split].
  unfold live in *. rewrite Es in *.
  assert (M : (b && negb (existsb (Nat.eqb (renderCanvas s)) (canvasDom c)))
              = false).
  { rewrite (snd_canvas _ Hs), Es, existsb_eqb_single. now destruct b. }
  split; cbn [clearSession cleanup log session]; rewrite M;
    destruct b;
    (rewrite alternates_app;
     match goal with H : alternates _ _ _ _ = Some _ |- _ => rewrite H end;
     reflexivity).
Qed.

Lemma Balanced_physicsEffect c :
  session c = None -> Balanced c -> Balanced (physicsEffect c).
Proof.
  intros Es [B1 B2 B3]. unfold physicsEffect.
  destruct (negb _ || negb _); [now split|].
  destruct (degenerate _); [now split|].
  unfold live in *. rewrite Es in *.
  split; cbn [log session]; rewrite alternates_app;
    match goal with H : alternates _ _ _ _ = Some _ |- _ => rewrite H end;
    (rewrite alternates_buildCalls; [reflexivity|now split..]).
Qed.

Lemma Balanced_closed : StageClosed Balanced.
Proof.
  split.
  - intros h lay rnd. now split.
  - intros h c []. now split.
  - intros p c []. now split.
  - intros l c []. now split.
  - intros pending c [B1 B2 B3].
    split; cbn [textEffect fst log session live]; unfold live in *;
      cbn [session];
    (rewrite alternates_app;
     match goal with H : alternates _ _ _ _ = Some _ |- _ => rewrite H end;
     reflexivity).
  - intros o calls c Hc [B1 B2 B3].
    split; unfold live in *; cbn [withObserver log session];
      rewrite alternates_app;
      match goal with H : alternates _ _ _ _ = Some _ |- _ => rewrite H end;
      (apply alternates_observer; [|exact Hc]);
      intros k Hk; destruct k; try discriminate; now split.
  - intros c Hs. now apply Balanced_teardown.
  - intros c _. apply Balanced_physicsEffect.
Qed.

(** X10: in every reachable instance the log shows engines created and
    cleared strictly in turn, and likewise runners run and stopped and
    renderers run and stopped; one of each is running exactly when the
    instance holds a session.  So at most one session exists at a time and
    a new one is never started before the previous one is released. *)
Theorem one_session_at_a_time :
  forall c : Comp,
    reachable c ->
    alternates isEngineCreate isEngineClear false (log c) = Some (live c) /\
    alternates isRunnerRun isRunnerStop false (log c) = Some (live c) /\
    alternates isRenderRun isRenderStop false (log c) = Some (live c).
Proof.
  intros c R. destruct (stage_reachable Balanced c Balanced_closed R).
  auto.
Qed.

Lemma one_session_at_a_time_witness :
  let c := run autoComp
             [Render (tunedHost "Alpha Beta Gamma" "auto" 2 0.9) true;
              Render (tunedHost "Alpha Beta" "auto" 3 0.9) false] in
  reachable c /\
  alternates isEngineCreate isEngineClear false (log c) = Some true /\
  length (filter isEngineCreate (log c)) = 3 /\
  length (filter isEngineClear (log c)) = 2.
Proof.
  intros c.
  assert (R : reachable c) by (do 2 apply reach_step; apply reach_mount).
  destruct (one_session_at_a_time c R) as (E & _).
  split; [exact R|]. split; [exact E|]. split; reflexivity.
Defined.

Lemma log_unmount b c :
  Sound c ->
  log (unmount b c) =
    (log c ++
     match observer c with Some _ => [Observer_disconnect] | None => [] end ++
     match session c with Some s => cleanupCalls b s | None => [] end)%list.
Proof.
  intros Hs. unfold unmount.
  pose proof (Sound_triggerCleanup c Hs) as Hs1.
  pose proof (session_triggerCleanup c) as Es.
  assert (El : log (triggerCleanup c) =
               (log c ++ match observer c with
                         | Some _ => [Observer_disconnect]
                         | None => []
                         end)%list).
  { unfold triggerCleanup. destruct (observer c); cbn [withObserver log];
      [reflexivity|now rewrite app_nil_r]. }
  unfold teardown. destruct (session (triggerCleanup c)) as [s|] eqn:E.
  - destruct (cleanup_once b s _ Hs1 E) as (_ & _ & L).
    cbn [clearSession log]. rewrite L, El, <- Es. unfold cleanupCalls.
    now rewrite <- app_assoc.
  - rewrite El, <- Es. now rewrite app_nil_r.
Qed.

(** X17: unmounting a reachable instance, with the canvas container still
    attached or already detached, runs the cleanups that are registered,
    each once, and nothing else: the observer, if any, is disconnected; the
    renderer and the runner of a session are stopped, its canvas is taken
    out of a container that is still attached, and its world and engine are
    cleared.  Nothing is thrown, no session and no observer is left, and
    every engine that was created has been cleared, every runner and
    renderer that was run has been stopped.  The pointer and the pointer
    constraint of the session get no call of their own. *)
Theorem unmount_runs_registered_cleanups :
  forall (c : Comp) (refAttached : bool),
    reachable c ->
    let u := unmount refAttached c in
    session u = None /\ observer u = None /\ thrown u = [] /\
    log u =
      (log c ++
       match observer c with Some _ => [Observer_disconnect] | None => [] end ++
       match session c with
       | Some s => cleanupCalls refAttached s
       | None => []
       end)%list /\
    alternates isEngineCreate isEngineClear false (log u) = Some false /\
    alternates isRunnerRun isRunnerStop false (log u) = Some false /\
    alternates isRenderRun isRenderStop false (log u) = Some false.
Proof.
  intros c b R. cbn zeta.
  pose proof (reachable_Inv c R) as [Hs _ _].
  pose proof (stage_reachable Balanced c Balanced_closed R) as B.
  pose proof (stage_triggerCleanup Balanced c Balanced_closed B) as B1.
  pose proof (Sound_triggerCleanup c Hs) as Hs1.
  destruct (Balanced_teardown b _ Hs1 B1) as [E1 E2 E3].
  split; [apply teardown_session|].
  split; [unfold unmount; now rewrite observer_teardown, triggerCleanup_observer|].
  split; [now apply teardown_no_throw|].
  split; [now apply log_unmount|].
  unfold unmount. unfold live in *. rewrite teardown_session in *.
  split; [exact E1|]. split; [exact E2|exact E3].
Qed.

Lemma unmount_runs_registered_cleanups_witness :
  let c := step scrollComp
             (Intersection {| isIntersecting := true; intersectionRatio := 1 |} []) in
  reachable c /\ live c = true /\
  session (unmount false c) = None /\
  skipn (length (log c)) (log (unmount false c)) =
    [Observer_disconnect; Render_stop; Runner_stop; World_clear; Engine_clear] /\
  alternates isEngineCreate isEngineClear false (log (unmount false c))
    = Some false.
Proof.
  intros c.
  assert (R : reachable c) by (apply reach_step, reach_mount).
  destruct (unmount_runs_registered_cleanups c false R) as (S & _ & _ & L & E & _).
  split; [exact R|]. split; [reflexivity|]. split; [exact S|].
  split; [|exact E].
  rewrite L, skipn_app, skipn_all, Nat.sub_diag. reflexivity.
Defined.

(** ** The world holds what was created (lines 135-200) *)

Lemma filter_wordCalls (wbs : list (nat * Body)) :
  filter isBodiesRectangle (flat_map wordCalls wbs) =
  map bodyCall (map snd wbs).
Proof.
  induction wbs as [|wb wbs IH]; [reflexivity|].
  cbn [flat_map map]. rewrite filter_app, IH. reflexivity.
Qed.

Lemma filter_bodyCalls (bs : list Body) :
  filter isBodiesRectangle (map bodyCall bs) = map bodyCall bs.
Proof.
  induction bs as [|b bs IH]; [reflexivity|].
  cbn [map filter bodyCall isBodiesRectangle]. fold (bodyCall b).
  now rewrite IH.
Qed.

(** X18: a session start adds to the world exactly what it created: the
    bodies of the world are the bodies made by [Bodies.rectangle], in the
    order they were made (four boundaries, then one per word span), the
    world has one pointer constraint, and the single [World.add] receives
    all of them, five items more than there are word bodies. *)
Theorem world_holds_what_was_created :
  forall c : Comp,
    let s := buildSession c in
    filter isBodiesRectangle (buildCalls c s) =
      map bodyCall (bodiesOf (world s)) /\
    length (bodiesOf (world s)) = 4 + length (wordBodies s) /\
    length (constraintsOf (world s)) = 1 /\
    length (world s) = 5 + length (wordBodies s) /\
    In (World_add (5 + length (wordBodies s))) (buildCalls c s).
Proof.
  intros c. cbn zeta.
  assert (L : length (world (buildSession c)) =
              5 + length (wordBodies (buildSession c))).
  { cbn [buildSession world wordBodies].
    rewrite length_app, !length_map. cbn [length boundaries].
    rewrite length_map. lia. }
  split; [|split; [|split; [|split]]].
  - rewrite bodiesOf_buildSession, map_app. unfold buildCalls. cbn zeta.
    cbn [app filter isBodiesRectangle].
    rewrite filter_app, filter_bodyCalls. f_equal.
    rewrite filter_app, filter_wordCalls. cbn [filter isBodiesRectangle].
    apply app_nil_r.
  - rewrite bodiesOf_buildSession, length_app, length_map. reflexivity.
  - now rewrite constraintsOf_buildSession.
  - exact L.
  - unfold buildCalls. cbn zeta. rewrite L.
    cbn [app]. right; right.
    apply in_or_app. right. apply in_or_app. right.
    right; right; now left.
Qed.
